(** * Battery-widget.py: the overlay widget's poll, animation and paint logic

    A shallow embedding of [src/Battery-widget.py].  The widget class
    [BatteryWidget] is a record, its methods are functions over a small
    state-and-exception monad, and the Qt classes it drives
    ([QPropertyAnimation], [QSequentialAnimationGroup], [QPainter], ...)
    are modelled after their documented behaviour, only as far as the
    source uses them.

    Python's [float] is kept abstract behind the class [PyFloat]; two
    instances are given: exact rational arithmetic ([Qc]), in which the
    general theorems are proved, and IEEE binary64 ([PrimFloat.float]),
    on which the same definitions are evaluated. *)

From Stdlib Require Import ZArith NArith QArith Qcanon Bool List String Lia Lqa DecimalString.
From Stdlib Require Import Floats.PrimFloat Floats.FloatOps Floats.SpecFloat.
From Stdlib Require Import Numbers.Cyclic.Int63.Uint63.
Import ListNotations.
Open Scope Z_scope.
Open Scope string_scope.

Set Implicit Arguments.

(* ================================================================== *)
(** ** Python values used by the widget *)

(** The outcome of a Python expression: a value, or a raised
    [Exception] carrying its message ([str(e)]). *)
Inductive result (A : Type) : Type :=
| Ok (a : A)
| Raise (e : string).
Arguments Ok {A} a.
Arguments Raise {A} e.

(** [battery.power_plugged] is [True], [False] or [None]; the same
    three values are what [self.plugged] and [self.prev_plugged] hold. *)
Inductive PyValue : Type :=
| PyNone
| PyBool (b : bool).

(** Truth value of a condition ([if x], [x and ...], [not x]). *)
Definition truth (v : PyValue) : bool :=
  match v with
  | PyNone => false
  | PyBool b => b
  end.

(** Arithmetic of Python's [float] (and of Qt's [qreal]). *)
Class PyFloat (F : Type) : Type := {
  of_int : Z -> F;              (* int -> float promotion *)
  fadd : F -> F -> F;
  fsub : F -> F -> F;
  fmul : F -> F -> F;
  fdiv : F -> F -> F;
  fneg : F -> F;
  fltb : F -> F -> bool;        (* x < y *)
  py_int : F -> result Z        (* int(x): truncation toward zero *)
}.

Declare Scope py_scope.
Delimit Scope py_scope with py.
Infix "+" := fadd : py_scope.
Infix "-" := fsub : py_scope.
Infix "*" := fmul : py_scope.
Infix "/" := fdiv : py_scope.
Notation "- x" := (fneg x) : py_scope.
Infix "<?" := fltb : py_scope.

(** *** Exact arithmetic *)

Definition Qc_of_int (z : Z) : Qc := Q2Qc (inject_Z z).

Definition Qc_ltb (x y : Qc) : bool :=
  match (x ?= y)%Qc with
  | Lt => true
  | _ => false
  end.

Definition Qc_int (x : Qc) : result Z :=
  Ok (Z.quot (Qnum (this x)) (Zpos (Qden (this x)))).

#[export] Instance Exact : PyFloat Qc := {
  of_int := Qc_of_int;
  fadd := Qcplus;
  fsub := Qcminus;
  fmul := Qcmult;
  fdiv := Qcdiv;
  fneg := Qcopp;
  fltb := Qc_ltb;
  py_int := Qc_int
}.

(** *** IEEE binary64 *)

Definition b64_of_int (z : Z) : float :=
  match z with
  | Zneg p => PrimFloat.opp (PrimFloat.of_uint63 (Uint63.of_Z (Zpos p)))
  | _ => PrimFloat.of_uint63 (Uint63.of_Z z)
  end.

(** [int(x)] on a binary64: the mantissa shifted by the exponent, with
    the sign put back; NaN and the infinities raise. *)
Definition b64_int (x : float) : result Z :=
  match Prim2SF x with
  | S754_zero _ => Ok 0
  | S754_finite s m e =>
      let a := match e with
               | Zneg k => Z.shiftr (Zpos m) (Zpos k)
               | _ => Z.shiftl (Zpos m) e
               end in
      Ok (if s then Z.opp a else a)
  | S754_infinity _ => Raise "cannot convert float infinity to integer"
  | S754_nan => Raise "cannot convert float NaN to integer"
  end.

#[export] Instance Binary64 : PyFloat float := {
  of_int := b64_of_int;
  fadd := PrimFloat.add;
  fsub := PrimFloat.sub;
  fmul := PrimFloat.mul;
  fdiv := PrimFloat.div;
  fneg := PrimFloat.opp;
  fltb := PrimFloat.ltb;
  py_int := b64_int
}.

(** A decimal literal of the source, [n / 10^k] correctly rounded. *)
Definition literal {F} `{PyFloat F} (num den : Z) : F :=
  (of_int num / of_int den)%py.

(** [str(n)] for an [int]. *)
Definition py_str (n : Z) : string := NilZero.string_of_int (Z.to_int n).

(* ================================================================== *)
(** ** The Qt classes the widget uses

    Only what [Battery-widget.py] calls.  Times are Qt's [int]
    milliseconds, angles Qt's sixteenths of a degree. *)

Section Toolkit.
Context {F : Type} {PF : PyFloat F}.

(** *** Geometry *)

Record QPoint : Type := { px : Z; py : Z }.

(** [QRect] stores its two corners; a rectangle of width [w] at [x]
    ends at [x + w - 1]. *)
Record QRect : Type := { x1 : Z; y1 : Z; x2 : Z; y2 : Z }.

Definition mkQRect (x y w h : Z) : QRect :=
  {| x1 := x; y1 := y; x2 := x + w - 1; y2 := y + h - 1 |}.

Definition adjusted (dx1 dy1 dx2 dy2 : Z) (r : QRect) : QRect :=
  {| x1 := x1 r + dx1; y1 := y1 r + dy1; x2 := x2 r + dx2; y2 := y2 r + dy2 |}.

Definition rect_width (r : QRect) : Z := x2 r - x1 r + 1.
Definition rect_height (r : QRect) : Z := y2 r - y1 r + 1.

Definition center (r : QRect) : QPoint :=
  {| px := Z.quot (x1 r + x2 r) 2; py := Z.quot (y1 r + y2 r) 2 |}.

Record QPointF : Type := { xp : F; yp : F }.

Record QRectF : Type := { rx : F; ry : F; rw : F; rh : F }.

Definition moveCenter (p : QPoint) (r : QRectF) : QRectF :=
  {| rx := (of_int (px p) - rw r / of_int 2)%py;
     ry := (of_int (py p) - rh r / of_int 2)%py;
     rw := rw r; rh := rh r |}.

Definition left (r : QRectF) : F := rx r.
Definition bottom (r : QRectF) : F := (ry r + rh r)%py.
Definition topLeft (r : QRectF) : QPointF := {| xp := rx r; yp := ry r |}.
Definition bottomLeft (r : QRectF) : QPointF :=
  {| xp := rx r; yp := (ry r + rh r)%py |}.
Definition bottomRight (r : QRectF) : QPointF :=
  {| xp := (rx r + rw r)%py; yp := (ry r + rh r)%py |}.

(** *** Painting *)

Inductive QColor : Type :=
| ColorName (name : string)          (* QColor("#RRGGBB") *)
| Rgba (r g b a : Z)                 (* QColor(r, g, b, a) *)
| white.                             (* Qt.white *)

(** [QLinearGradient(start, finalStop)] with its [setColorAt] stops. *)
Record QLinearGradient : Type := {
  gradStart : QPointF;
  gradFinalStop : QPointF;
  gradStops : list (Z * QColor)
}.

Definition setColorAt (pos : Z) (c : QColor) (g : QLinearGradient) : QLinearGradient :=
  {| gradStart := gradStart g; gradFinalStop := gradFinalStop g;
     gradStops := gradStops g ++ [(pos, c)] |}.

Inductive QBrush : Type :=
| NoBrush
| SolidPattern (c : QColor)
| LinearGradientPattern (g : QLinearGradient).

Inductive PenStyle : Type := NoPen | SolidLine.
Inductive PenCapStyle : Type := SquareCap | RoundCap.

Record QPen : Type := {
  penBrush : QBrush;
  penWidth : F;
  penStyle : PenStyle;
  penCap : PenCapStyle
}.

(** [QPen(color, width)]: solid line, square cap. *)
Definition mkQPen (c : QColor) (w : F) : QPen :=
  {| penBrush := SolidPattern c; penWidth := w;
     penStyle := SolidLine; penCap := SquareCap |}.

(** [pen.setBrush(gradient)]. *)
Definition pen_setBrush (b : QBrush) (p : QPen) : QPen :=
  {| penBrush := b; penWidth := penWidth p;
     penStyle := penStyle p; penCap := penCap p |}.

(** [painter.setPen(Qt.NoPen)]. *)
Definition pen_none : QPen :=
  {| penBrush := NoBrush; penWidth := of_int 1;
     penStyle := NoPen; penCap := SquareCap |}.

Inductive QFont : Type :=
| DefaultFont
| Font (family : string) (pointSize : Z) (bold : bool).

(** A number handed to Qt, as the source passes it. *)
Inductive Number : Type :=
| Int (n : Z)
| Float (x : F).

Inductive Shape : Type :=
| Arc (r : QRectF) (startAngle spanAngle : Number)
| RoundedRect (r : QRectF) (xRadius yRadius : Z)
| Polygon (points : list QPointF)
| Text (r : QRect) (alignCenter : bool) (text : string).

(** Rectangles and polygons are filled with the brush; arcs and text
    only use the pen. *)
Definition filled (s : Shape) : bool :=
  match s with
  | RoundedRect _ _ _ | Polygon _ => true
  | Arc _ _ _ | Text _ _ _ => false
  end.

(** What one [draw...] call puts on the widget: the shape, stroked
    with the painter's pen and, if it is a filled shape, filled with
    its brush at that moment. *)
Record Drawn : Type := {
  shape : Shape;
  stroke : QPen;
  fill : QBrush;
  typeface : QFont
}.

Record QPainter : Type := {
  antialiasing : bool;
  pen : QPen;
  brush : QBrush;
  font : QFont;
  drawn : list Drawn
}.

(** [QPainter(widget)]: default black pen, no brush, nothing drawn. *)
Definition new_painter : QPainter :=
  {| antialiasing := false;
     pen := mkQPen (Rgba 0 0 0 255) (of_int 1);
     brush := NoBrush; font := DefaultFont; drawn := [] |}.

Definition setRenderHint_Antialiasing (p : QPainter) : QPainter :=
  {| antialiasing := true; pen := pen p; brush := brush p;
     font := font p; drawn := drawn p |}.

Definition setPen (q : QPen) (p : QPainter) : QPainter :=
  {| antialiasing := antialiasing p; pen := q; brush := brush p;
     font := font p; drawn := drawn p |}.

Definition setBrush (b : QBrush) (p : QPainter) : QPainter :=
  {| antialiasing := antialiasing p; pen := pen p; brush := b;
     font := font p; drawn := drawn p |}.

Definition setFont (f : QFont) (p : QPainter) : QPainter :=
  {| antialiasing := antialiasing p; pen := pen p; brush := brush p;
     font := f; drawn := drawn p |}.

Definition draw (s : Shape) (p : QPainter) : QPainter :=
  {| antialiasing := antialiasing p; pen := pen p; brush := brush p;
     font := font p;
     drawn := drawn p ++ [{| shape := s; stroke := pen p;
                             fill := if filled s then brush p else NoBrush;
                             typeface := font p |}] |}.

Definition drawArc (r : QRectF) (a alen : Number) := draw (Arc r a alen).
Definition drawRoundedRect (r : QRectF) (xr yr : Z) := draw (RoundedRect r xr yr).
Definition drawPolygon (pts : list QPointF) := draw (Polygon pts).
Definition drawText (r : QRect) (text : string) := draw (Text r true text).

(** *** Easing curves *)

Inductive EasingType : Type := Linear | OutCubic | InCubic.

Definition qMin (a b : F) : F := if (a <? b)%py then a else b.
Definition qMax (a b : F) : F := if (a <? b)%py then b else a.
Definition qBound (lo v hi : F) : F := qMax lo (qMin hi v).

(** [QEasingCurve::valueForProgress]: the progress is bounded to
    [0, 1]; out-cubic is [(t-1)^3 + 1], in-cubic is [t^3]. *)
Definition valueForProgress (c : EasingType) (progress : F) : F :=
  let t := qBound (of_int 0) progress (of_int 1) in
  match c with
  | Linear => t
  | OutCubic => let u := (t - of_int 1)%py in (u * u * u + of_int 1)%py
  | InCubic => (t * t * t)%py
  end.

(** *** Animations *)

Inductive AnimationState : Type := Stopped | Running.

(** The [Property] objects of the widget an animation can drive. *)
Inductive PropertyName : Type := animated_percent | pulse_scale.

Record QPropertyAnimation : Type := {
  propertyName : PropertyName;
  duration : Z;
  easingCurve : EasingType;
  startValue : option F;
  endValue : option F;
  state : AnimationState;
  currentTime : Z
}.

(** [QPropertyAnimation(self, name)]: 250 ms, linear, no key values. *)
Definition new_animation (name : PropertyName) : QPropertyAnimation :=
  {| propertyName := name; duration := 250; easingCurve := Linear;
     startValue := None; endValue := None;
     state := Stopped; currentTime := 0 |}.

Definition setDuration (ms : Z) (a : QPropertyAnimation) : QPropertyAnimation :=
  {| propertyName := propertyName a; duration := ms;
     easingCurve := easingCurve a;
     startValue := startValue a; endValue := endValue a;
     state := state a; currentTime := currentTime a |}.

Definition setEasingCurve (c : EasingType) (a : QPropertyAnimation) : QPropertyAnimation :=
  {| propertyName := propertyName a; duration := duration a;
     easingCurve := c;
     startValue := startValue a; endValue := endValue a;
     state := state a; currentTime := currentTime a |}.

Definition setStartValue (v : F) (a : QPropertyAnimation) : QPropertyAnimation :=
  {| propertyName := propertyName a; duration := duration a;
     easingCurve := easingCurve a;
     startValue := Some v; endValue := endValue a;
     state := state a; currentTime := currentTime a |}.

Definition setEndValue (v : F) (a : QPropertyAnimation) : QPropertyAnimation :=
  {| propertyName := propertyName a; duration := duration a;
     easingCurve := easingCurve a;
     startValue := startValue a; endValue := Some v;
     state := state a; currentTime := currentTime a |}.

(** State and clock of an animation, set together by Qt. *)
Definition at_time (s : AnimationState) (t : Z) (a : QPropertyAnimation) : QPropertyAnimation :=
  {| propertyName := propertyName a; duration := duration a;
     easingCurve := easingCurve a;
     startValue := startValue a; endValue := endValue a;
     state := s; currentTime := t |}.

(** Qt's interpolator for [qreal]: [from + (to - from) * progress]. *)
Definition interpolated (from to progress : F) : F :=
  (from + (to - from) * progress)%py.

(** The value an animation gives its property at clock [t]. *)
Definition valueAt (a : QPropertyAnimation) (t : Z) : option F :=
  match startValue a, endValue a with
  | Some from, Some to =>
      let progress :=
        if (duration a =? 0)%Z then of_int 1
        else (of_int t / of_int (duration a))%py in
      Some (interpolated from to (valueForProgress (easingCurve a) progress))
  | _, _ => None
  end.

(** [QSequentialAnimationGroup]: its animations play one after the
    other on the group's clock. *)
Record QSequentialAnimationGroup : Type := {
  animations : list QPropertyAnimation;
  groupState : AnimationState;
  groupTime : Z
}.

Definition new_group : QSequentialAnimationGroup :=
  {| animations := []; groupState := Stopped; groupTime := 0 |}.

Definition addAnimation (a : QPropertyAnimation) (g : QSequentialAnimationGroup)
  : QSequentialAnimationGroup :=
  {| animations := animations g ++ [a];
     groupState := groupState g; groupTime := groupTime g |}.

Definition group_at_time (s : AnimationState) (t : Z) (g : QSequentialAnimationGroup)
  : QSequentialAnimationGroup :=
  {| animations := animations g; groupState := s; groupTime := t |}.

Definition totalDuration (g : QSequentialAnimationGroup) : Z :=
  fold_right (fun a acc => duration a + acc) 0 (animations g).

(** The animation of the sequence that is current at group clock [t],
    with its own clock; at an inner boundary the next one is current,
    at the very end the last one stays at its end. *)
Fixpoint animationAt (l : list QPropertyAnimation) (t : Z)
  : option (QPropertyAnimation * Z) :=
  match l with
  | [] => None
  | a :: rest =>
      match rest with
      | [] => Some (a, Z.min t (duration a))
      | _ :: _ =>
          if (t <? duration a)%Z then Some (a, t)
          else animationAt rest (t - duration a)
      end
  end.

(** *** Timer and window attributes *)

Record QTimer : Type := { interval : Z; active : bool }.

(** [Qt::WindowFlags] bits. *)
Definition Qt_Widget : Z := 0x0.
Definition Qt_Window : Z := 0x1.
Definition Qt_Dialog : Z := 0x3.
Definition Qt_SubWindow : Z := 0x12.
Definition Qt_Tool : Z := 0xb.
Definition Qt_FramelessWindowHint : Z := 0x800.
Definition Qt_WindowType_Mask : Z := 0xff.

Definition windowType (flags : Z) : Z := Z.land flags Qt_WindowType_Mask.

Inductive MouseButton : Type :=
| LeftButton | RightButton | MiddleButton | OtherButton (n : Z).

Definition button_eqb (a b : MouseButton) : bool :=
  match a, b with
  | LeftButton, LeftButton => true
  | RightButton, RightButton => true
  | MiddleButton, MiddleButton => true
  | OtherButton n, OtherButton m => (n =? m)%Z
  | _, _ => false
  end.

(** The [QWidget] base object: geometry, flags, visibility, and
    whether a paint event is pending ([update()]). *)
Record QWidget : Type := {
  width : Z;
  height : Z;
  pos : QPoint;
  windowFlags : Z;
  WA_TranslucentBackground : bool;
  WA_QuitOnClose : bool;
  visible : bool;
  update_pending : bool
}.

(** A fresh top-level [QWidget()]. *)
Definition new_widget : QWidget :=
  {| width := 640; height := 480; pos := {| px := 0; py := 0 |};
     windowFlags := Qt_Window;
     WA_TranslucentBackground := false; WA_QuitOnClose := true;
     visible := false; update_pending := false |}.

Definition rect (q : QWidget) : QRect := mkQRect 0 0 (width q) (height q).

Definition setFixedSize (w h : Z) (q : QWidget) : QWidget :=
  {| width := w; height := h; pos := pos q; windowFlags := windowFlags q;
     WA_TranslucentBackground := WA_TranslucentBackground q;
     WA_QuitOnClose := WA_QuitOnClose q;
     visible := visible q; update_pending := update_pending q |}.

(** [setWindowFlags]: a top-level widget that is no longer a plain
    window or dialog (a tool window, a popup, a splash screen) loses
    [WA_QuitOnClose]. *)
Definition setWindowFlags (flags : Z) (q : QWidget) : QWidget :=
  let ty := windowType flags in
  let keeps := (ty =? Qt_Widget)%Z || (ty =? Qt_SubWindow)%Z
               || (ty =? Qt_Window)%Z || (ty =? Qt_Dialog)%Z in
  {| width := width q; height := height q; pos := pos q;
     windowFlags := flags;
     WA_TranslucentBackground := WA_TranslucentBackground q;
     WA_QuitOnClose := if keeps then WA_QuitOnClose q else false;
     visible := visible q; update_pending := update_pending q |}.

Definition setAttribute_WA_TranslucentBackground (q : QWidget) : QWidget :=
  {| width := width q; height := height q; pos := pos q;
     windowFlags := windowFlags q;
     WA_TranslucentBackground := true;
     WA_QuitOnClose := WA_QuitOnClose q;
     visible := visible q; update_pending := update_pending q |}.

Definition move (x y : Z) (q : QWidget) : QWidget :=
  {| width := width q; height := height q; pos := {| px := x; py := y |};
     windowFlags := windowFlags q;
     WA_TranslucentBackground := WA_TranslucentBackground q;
     WA_QuitOnClose := WA_QuitOnClose q;
     visible := visible q; update_pending := update_pending q |}.

Definition setVisible (v : bool) (q : QWidget) : QWidget :=
  {| width := width q; height := height q; pos := pos q;
     windowFlags := windowFlags q;
     WA_TranslucentBackground := WA_TranslucentBackground q;
     WA_QuitOnClose := WA_QuitOnClose q;
     visible := v; update_pending := v && update_pending q |}.

(** [update()]: schedules a paint event if the widget is visible. *)
Definition update (q : QWidget) : QWidget :=
  {| width := width q; height := height q; pos := pos q;
     windowFlags := windowFlags q;
     WA_TranslucentBackground := WA_TranslucentBackground q;
     WA_QuitOnClose := WA_QuitOnClose q;
     visible := visible q; update_pending := visible q |}.

Definition painted (q : QWidget) : QWidget :=
  {| width := width q; height := height q; pos := pos q;
     windowFlags := windowFlags q;
     WA_TranslucentBackground := WA_TranslucentBackground q;
     WA_QuitOnClose := WA_QuitOnClose q;
     visible := visible q; update_pending := false |}.

End Toolkit.

Arguments QPointF : clear implicits.
Arguments QRectF : clear implicits.
Arguments QLinearGradient : clear implicits.
Arguments QBrush : clear implicits.
Arguments QPen : clear implicits.
Arguments Number : clear implicits.
Arguments Shape : clear implicits.
Arguments Drawn : clear implicits.
Arguments QPainter : clear implicits.
Arguments QPropertyAnimation : clear implicits.
Arguments QSequentialAnimationGroup : clear implicits.

(* ================================================================== *)
(** ** [class BatteryWidget(QWidget)] *)

Section Widget.
Context {F : Type} {PF : PyFloat F}.

(** What [psutil.sensors_battery()] returns when a battery is present
    (the fields the widget reads). *)
Record sbattery : Type := {
  percent : F;
  power_plugged : PyValue
}.

(** One call of [psutil.sensors_battery()]: it raises, or returns
    [None] (no battery) or a reading. *)
Definition SensorRead : Type := result (option sbattery).

Record BatteryWidget : Type := {
  base : QWidget;                                  (* super().__init__() *)
  _animated_percent : F;
  _pulse_scale : F;
  plugged : PyValue;
  prev_plugged : PyValue;
  animation : QPropertyAnimation F;
  pulse_animation_group : QSequentialAnimationGroup F;
  timer : option QTimer
}.

(** *** Attribute assignment *)

Definition with_base (q : QWidget) (w : BatteryWidget) : BatteryWidget :=
  {| base := q; _animated_percent := _animated_percent w;
     _pulse_scale := _pulse_scale w; plugged := plugged w;
     prev_plugged := prev_plugged w; animation := animation w;
     pulse_animation_group := pulse_animation_group w; timer := timer w |}.

Definition with_animated_percent (v : F) (w : BatteryWidget) : BatteryWidget :=
  {| base := base w; _animated_percent := v;
     _pulse_scale := _pulse_scale w; plugged := plugged w;
     prev_plugged := prev_plugged w; animation := animation w;
     pulse_animation_group := pulse_animation_group w; timer := timer w |}.

Definition with_pulse_scale (v : F) (w : BatteryWidget) : BatteryWidget :=
  {| base := base w; _animated_percent := _animated_percent w;
     _pulse_scale := v; plugged := plugged w;
     prev_plugged := prev_plugged w; animation := animation w;
     pulse_animation_group := pulse_animation_group w; timer := timer w |}.

Definition with_plugged (v : PyValue) (w : BatteryWidget) : BatteryWidget :=
  {| base := base w; _animated_percent := _animated_percent w;
     _pulse_scale := _pulse_scale w; plugged := v;
     prev_plugged := prev_plugged w; animation := animation w;
     pulse_animation_group := pulse_animation_group w; timer := timer w |}.

Definition with_prev_plugged (v : PyValue) (w : BatteryWidget) : BatteryWidget :=
  {| base := base w; _animated_percent := _animated_percent w;
     _pulse_scale := _pulse_scale w; plugged := plugged w;
     prev_plugged := v; animation := animation w;
     pulse_animation_group := pulse_animation_group w; timer := timer w |}.

Definition with_animation (a : QPropertyAnimation F) (w : BatteryWidget) : BatteryWidget :=
  {| base := base w; _animated_percent := _animated_percent w;
     _pulse_scale := _pulse_scale w; plugged := plugged w;
     prev_plugged := prev_plugged w; animation := a;
     pulse_animation_group := pulse_animation_group w; timer := timer w |}.

Definition with_pulse_animation_group (g : QSequentialAnimationGroup F)
  (w : BatteryWidget) : BatteryWidget :=
  {| base := base w; _animated_percent := _animated_percent w;
     _pulse_scale := _pulse_scale w; plugged := plugged w;
     prev_plugged := prev_plugged w; animation := animation w;
     pulse_animation_group := g; timer := timer w |}.

Definition with_timer (t : option QTimer) (w : BatteryWidget) : BatteryWidget :=
  {| base := base w; _animated_percent := _animated_percent w;
     _pulse_scale := _pulse_scale w; plugged := plugged w;
     prev_plugged := prev_plugged w; animation := animation w;
     pulse_animation_group := pulse_animation_group w; timer := t |}.

(** *** [initUI] *)

Definition initUI (screen_width : Z) (w : BatteryWidget) : BatteryWidget :=
  let q := setFixedSize 120 120 (base w) in
  let q := setWindowFlags (Z.lor Qt_FramelessWindowHint Qt_Tool) q in
  let q := setAttribute_WA_TranslucentBackground q in
  let q := move (screen_width - width q - 20) 30 q in
  with_base q w.

(** *** [initAnimation] *)

Definition anim_grow : QPropertyAnimation F :=
  setEasingCurve OutCubic
    (setEndValue (literal 11 10)
       (setStartValue (of_int 1)
          (setDuration 150 (new_animation pulse_scale)))).

Definition anim_shrink : QPropertyAnimation F :=
  setEasingCurve InCubic
    (setEndValue (of_int 1)
       (setStartValue (literal 11 10)
          (setDuration 250 (new_animation pulse_scale)))).

Definition initAnimation (w : BatteryWidget) : BatteryWidget :=
  let w := with_animation
             (setEasingCurve OutCubic
                (setDuration 1000 (new_animation animated_percent))) w in
  with_pulse_animation_group
    (addAnimation anim_shrink (addAnimation anim_grow new_group)) w.

(** *** The two animated properties *)

Definition get_animated_percent (w : BatteryWidget) : F := _animated_percent w.

Definition set_animated_percent (value : F) (w : BatteryWidget) : BatteryWidget :=
  let w := with_animated_percent value w in
  with_base (update (base w)) w.

Definition get_pulse_scale (w : BatteryWidget) : F := _pulse_scale w.

Definition set_pulse_scale (value : F) (w : BatteryWidget) : BatteryWidget :=
  let w := with_pulse_scale value w in
  with_base (update (base w)) w.

(** Writing a [Property] by name, as an animation does. *)
Definition setProperty (name : PropertyName) (value : F) (w : BatteryWidget)
  : BatteryWidget :=
  match name with
  | animated_percent => set_animated_percent value w
  | pulse_scale => set_pulse_scale value w
  end.

(** *** Qt driving the animations *)

(** An animation writes its current value to its property. *)
Definition updateCurrentValue (a : QPropertyAnimation F) (t : Z)
  (w : BatteryWidget) : BatteryWidget :=
  match valueAt a t with
  | Some v => setProperty (propertyName a) v w
  | None => w
  end.

(** [self.animation.stop()]. *)
Definition animation_stop (w : BatteryWidget) : BatteryWidget :=
  with_animation (at_time Stopped (currentTime (animation w)) (animation w)) w.

(** [self.animation.start()]: nothing if it is running; otherwise the
    clock is rewound to 0, the state is [Running] and the value at 0
    is written. *)
Definition animation_start (w : BatteryWidget) : BatteryWidget :=
  match state (animation w) with
  | Running => w
  | Stopped =>
      let a := at_time Running 0 (animation w) in
      updateCurrentValue a 0 (with_animation a w)
  end.

(** The group writes the value of its current animation. *)
Definition updateGroupValue (g : QSequentialAnimationGroup F) (t : Z)
  (w : BatteryWidget) : BatteryWidget :=
  match animationAt (animations g) t with
  | Some (a, local) => updateCurrentValue a local w
  | None => w
  end.

(** [self.pulse_animation_group.start()]. *)
Definition pulse_animation_group_start (w : BatteryWidget) : BatteryWidget :=
  match groupState (pulse_animation_group w) with
  | Running => w
  | Stopped =>
      let g := group_at_time Running 0 (pulse_animation_group w) in
      updateGroupValue g 0 (with_pulse_animation_group g w)
  end.

(** Qt's animation clock moves on by [dt] ms: a running animation
    advances, writes its value, and stops when it reaches its end. *)
Definition advance_animation (dt : Z) (w : BatteryWidget) : BatteryWidget :=
  let a := animation w in
  match state a with
  | Stopped => w
  | Running =>
      let t := Z.min (currentTime a + dt) (duration a) in
      let w := updateCurrentValue a t (with_animation (at_time Running t a) w) in
      if (t <? duration a)%Z then w
      else with_animation (at_time Stopped t a) w
  end.

Definition advance_pulse (dt : Z) (w : BatteryWidget) : BatteryWidget :=
  let g := pulse_animation_group w in
  match groupState g with
  | Stopped => w
  | Running =>
      let t := Z.min (groupTime g + dt) (totalDuration g) in
      let w := updateGroupValue g t
                 (with_pulse_animation_group (group_at_time Running t g) w) in
      if (t <? totalDuration g)%Z then w
      else with_pulse_animation_group (group_at_time Stopped t g) w
  end.

Definition advance (dt : Z) (w : BatteryWidget) : BatteryWidget :=
  advance_pulse dt (advance_animation dt w).

(** *** [draw_battery_icon] *)

Definition mkQRectF (x y w h : Z) : QRectF F :=
  {| rx := of_int x; ry := of_int y; rw := of_int w; rh := of_int h |}.

Definition mkQPointF (x y : Z) : QPointF F :=
  {| xp := of_int x; yp := of_int y |}.

Definition draw_battery_icon (self : BatteryWidget) (painter : QPainter F)
  (percent : F) (color1 color2 : string) : QPainter F :=
  let body_rect := mkQRectF 45 35 30 45 in
  let painter := setBrush (SolidPattern (Rgba 40 40 40 200)) painter in
  let painter := setPen (mkQPen (Rgba 200 200 200 255) (literal 15 10)) painter in
  let painter := drawRoundedRect body_rect 3 3 painter in
  let cap_rect := mkQRectF 51 31 18 4 in
  let painter := drawRoundedRect cap_rect 2 2 painter in
  let fill_height := ((rh body_rect - of_int 4) * (percent / of_int 100))%py in
  let fill_rect :=
    {| rx := (left body_rect + of_int 2)%py;
       ry := (bottom body_rect - of_int 2 - fill_height)%py;
       rw := (rw body_rect - of_int 4)%py;
       rh := fill_height |} in
  let fill_gradient :=
    setColorAt 1 (ColorName color2)
      (setColorAt 0 (ColorName color1)
         {| gradStart := topLeft fill_rect;
            gradFinalStop := bottomLeft fill_rect; gradStops := [] |}) in
  let painter := setBrush (LinearGradientPattern fill_gradient) painter in
  let painter := setPen pen_none painter in
  let painter := drawRoundedRect fill_rect 2 2 painter in
  if truth (plugged self) then
    let painter := setBrush (SolidPattern (Rgba 255 255 255 220)) painter in
    let painter := setPen pen_none painter in
    let points :=
      [mkQPointF 57 48; mkQPointF 63 48; mkQPointF 60 57;
       mkQPointF 63 57; mkQPointF 57 70; mkQPointF 60 61;
       mkQPointF 57 61] in
    drawPolygon points painter
  else painter.

(** *** [paintEvent]

    Returns the painter with everything drawn, and how the method
    ended ([int(percent)] can raise). *)

Definition paintEvent (self : BatteryWidget) : QPainter F * result unit :=
  let painter := setRenderHint_Antialiasing new_painter in
  let base_rect := adjusted 10 10 (-10) (-10) (rect (base self)) in
  let center := center base_rect in
  let width := (of_int (rect_width base_rect) * _pulse_scale self)%py in
  let height := (of_int (rect_height base_rect) * _pulse_scale self)%py in
  let rect' := moveCenter center
                 {| rx := of_int 0; ry := of_int 0; rw := width; rh := height |} in
  let percent := _animated_percent self in
  let '(color1, color2) :=
    if truth (plugged self) then ("#69F0AE", "#00C853")
    else if (percent <? of_int 20)%py then ("#F44336", "#D32F2F")
    else if (percent <? of_int 50)%py then ("#FFC107", "#FFA000")
    else ("#00E5FF", "#00B8D4") in
  let gradient :=
    setColorAt 1 (ColorName color2)
      (setColorAt 0 (ColorName color1)
         {| gradStart := topLeft rect';
            gradFinalStop := bottomRight rect'; gradStops := [] |}) in
  let pen :=
    {| penBrush := SolidPattern (Rgba 60 60 60 200); penWidth := of_int 10;
       penStyle := SolidLine; penCap := RoundCap |} in
  let painter := setPen pen painter in
  let start_angle := 90 * 16 in
  let span_angle := 360 * 16 in
  let painter := drawArc rect' (Int start_angle) (Int span_angle) painter in
  let pen := pen_setBrush (LinearGradientPattern gradient) pen in
  let painter := setPen pen painter in
  let progress_span := (- percent / of_int 100 * of_int span_angle)%py in
  let painter := drawArc rect' (Int start_angle) (Float progress_span) painter in
  let painter := draw_battery_icon self painter percent color1 color2 in
  let font := Font "Segoe UI" 9 true in
  let painter := setFont font painter in
  let painter := setPen (mkQPen white (of_int 1)) painter in
  let text_rect := adjusted 0 80 0 (-15) (rect (base self)) in
  match py_int percent with
  | Ok n => (drawText text_rect (py_str n ++ "%") painter, Ok tt)
  | Raise e => (painter, Raise e)
  end.

(** *** The running program *)

(** The process: the one widget, what was printed, what the window
    shows, and whether [app.exec()] is still running. *)
Record Process : Type := {
  self : BatteryWidget;
  stdout : list string;
  screen : list (Drawn F);
  exec_running : bool
}.

(** Statements: they change the process and return or raise. *)
Definition M (A : Type) : Type := Process -> result A * Process.

Definition ret {A} (a : A) : M A := fun p => (Ok a, p).

Definition bind {A B} (c : M A) (k : A -> M B) : M B :=
  fun p =>
    match c p with
    | (Ok a, p') => k a p'
    | (Raise e, p') => (Raise e, p')
    end.

(** [try: body except Exception as e: handler(str(e))]. *)
Definition try_except {A} (body : M A) (handler : string -> M A) : M A :=
  fun p =>
    match body p with
    | (Ok a, p') => (Ok a, p')
    | (Raise e, p') => handler e p'
    end.

Definition call {A} (r : result A) : M A := fun p => (r, p).

Definition get_self : M BatteryWidget := fun p => (Ok (self p), p).

Definition modify (f : BatteryWidget -> BatteryWidget) : M unit :=
  fun p => (Ok tt, {| self := f (self p); stdout := stdout p;
                      screen := screen p; exec_running := exec_running p |}).

Definition print (line : string) : M unit :=
  fun p => (Ok tt, {| self := self p; stdout := stdout p ++ [line];
                      screen := screen p; exec_running := exec_running p |}).

End Widget.

Arguments sbattery : clear implicits.
Arguments SensorRead : clear implicits.
Arguments BatteryWidget : clear implicits.
Arguments Process : clear implicits.
Arguments M : clear implicits.

Notation "x <- c1 ;; c2" := (bind c1 (fun x => c2))
  (at level 61, c1 at next level, right associativity).
Notation "c1 ;; c2" := (bind c1 (fun _ => c2))
  (at level 61, right associativity).

Section Program.
Context {F : Type} {PF : PyFloat F}.

(** *** [update_battery_info] *)

Definition update_battery_info (sensors_battery : SensorRead F) : M F unit :=
  try_except
    (battery <- call sensors_battery ;;
     target_percent <- match battery with
                       | Some b => call (py_int (percent b))
                       | None => ret 0
                       end ;;
     modify (with_plugged match battery with
                          | Some b => power_plugged b
                          | None => PyBool false
                          end) ;;
     w <- get_self ;;
     (if truth (plugged w) && negb (truth (prev_plugged w))
      then modify pulse_animation_group_start
      else ret tt) ;;
     w <- get_self ;;
     modify (with_prev_plugged (plugged w)) ;;
     modify animation_stop ;;
     w <- get_self ;;
     modify (fun w' => with_animation (setStartValue (_animated_percent w) (animation w')) w') ;;
     modify (fun w' => with_animation (setEndValue (of_int target_percent) (animation w')) w') ;;
     modify animation_start)
    (fun e => print ("Error fetching battery info: " ++ e)).

(** *** [mousePressEvent] *)

(** [self.close()]: the close event is accepted (the class does not
    override [closeEvent]) and the window is hidden.  It is the only
    window; Qt leaves [app.exec()] on this close only if the window
    has [WA_QuitOnClose]. *)
Definition close : M F bool :=
  fun p =>
    let q := base (self p) in
    if visible q then
      (Ok true,
       {| self := with_base (setVisible false q) (self p);
          stdout := stdout p; screen := [];
          exec_running := exec_running p && negb (WA_QuitOnClose q) |})
    else (Ok true, p).

Definition mousePressEvent (button : MouseButton) : M F unit :=
  if button_eqb button RightButton
  then (_ <- close ;; ret tt)
  else ret tt.

(** *** [__init__] and the main block *)

(** The object before [__init__] has run its two [init...] methods:
    the four plain attributes, and nothing yet in the animation
    attributes. *)
Definition fresh : BatteryWidget F :=
  {| base := new_widget;
     _animated_percent := of_int 0;
     _pulse_scale := of_int 1;
     plugged := PyBool false;
     prev_plugged := PyBool false;
     animation := new_animation animated_percent;
     pulse_animation_group := new_group;
     timer := None |}.

Definition __init__ (screen_width : Z) (sensors_battery : SensorRead F) : M F unit :=
  modify (initUI screen_width) ;;
  modify initAnimation ;;
  update_battery_info sensors_battery ;;
  modify (with_timer (Some {| interval := 1000; active := true |})).

(** [widget.show()]. *)
Definition show : M F unit :=
  modify (fun w => with_base (update (setVisible true (base w))) w).

(** [widget = BatteryWidget(); widget.show()], up to the entry into
    [app.exec()].  The primary screen's width and the outcome of the
    first sensor read come from the environment. *)
Definition main (screen_width : Z) (sensors_battery : SensorRead F) : Process F :=
  let p := {| self := fresh; stdout := []; screen := []; exec_running := false |} in
  let p := snd ((__init__ screen_width sensors_battery ;; show) p) in
  {| self := self p; stdout := stdout p; screen := screen p;
     exec_running := true |}.

(** *** The event loop *)

(** What [app.exec()] delivers to the widget. *)
Inductive Event : Type :=
| TimerTimeout (sensors_battery : SensorRead F)  (* the 1000 ms timer fired;
                                                    what the sensor read will do *)
| AnimationTick (dt : N)                         (* the animation clock moved by dt ms *)
| PaintEvent
| MousePress (button : MouseButton).

Definition timer_active (w : BatteryWidget F) : bool :=
  match timer w with
  | Some t => active t
  | None => false
  end.

Definition dispatch (e : Event) (p : Process F) : Process F :=
  if exec_running p then
    match e with
    | TimerTimeout r =>
        if timer_active (self p) then snd (update_battery_info r p) else p
    | AnimationTick dt =>
        snd (modify (advance (Z.of_N dt)) p)
    | PaintEvent =>
        if visible (base (self p)) then
          {| self := with_base (painted (base (self p))) (self p);
             stdout := stdout p;
             screen := drawn (fst (paintEvent (self p)));
             exec_running := exec_running p |}
        else p
    | MousePress b =>
        if visible (base (self p)) then snd (mousePressEvent b p) else p
    end
  else p.

Definition run (events : list Event) (p : Process F) : Process F :=
  fold_left (fun p e => dispatch e p) events p.

End Program.

Arguments Event : clear implicits.

(* ================================================================== *)
(** ** Notions used to state the properties *)

Section Notions.
Context {F : Type} {PF : PyFloat F}.

(** The two expressions of lines 173 and 174. *)
Definition target (battery : option (sbattery F)) : result Z :=
  match battery with
  | Some b => py_int (percent b)
  | None => Ok 0
  end.

Definition read_plugged (battery : option (sbattery F)) : PyValue :=
  match battery with
  | Some b => power_plugged b
  | None => PyBool false
  end.

(** The condition of line 177, on the value just read. *)
Definition plugged_in_now (v : PyValue) (w : BatteryWidget F) : bool :=
  truth v && negb (truth (prev_plugged w)).

Definition with_self (w : BatteryWidget F) (p : Process F) : Process F :=
  {| self := w; stdout := stdout p; screen := screen p;
     exec_running := exec_running p |}.

Definition printed (line : string) (p : Process F) : Process F :=
  {| self := self p; stdout := stdout p ++ [line]; screen := screen p;
     exec_running := exec_running p |}.

(** The body of the [try] block when nothing raises: what it does to
    the widget, for the plugged value [v] and the target [n]. *)
Definition polled (v : PyValue) (n : Z) (w : BatteryWidget F) : BatteryWidget F :=
  let w1 := with_plugged v w in
  let w2 := if truth v && negb (truth (prev_plugged w))
            then pulse_animation_group_start w1 else w1 in
  let w3 := animation_stop (with_prev_plugged v w2) in
  animation_start
    (with_animation
       (setEndValue (of_int n)
          (setStartValue (_animated_percent w3) (animation w3))) w3).

(** What [initAnimation] and [initUI] set and nothing changes later. *)
Definition the_pulse : list (QPropertyAnimation F) := [anim_grow; anim_shrink].

Definition the_timer : QTimer := {| interval := 1000; active := true |}.

Definition config (w : BatteryWidget F) :=
  (propertyName (animation w), duration (animation w), easingCurve (animation w),
   animations (pulse_animation_group w),
   (WA_QuitOnClose (base w), width (base w), height (base w))).

Definition configured (w : BatteryWidget F) : Prop :=
  config w = (animated_percent, 1000, OutCubic, the_pulse, (false, 120, 120)).

Definition Inv (p : Process F) : Prop :=
  configured (self p) /\ timer (self p) = Some the_timer.

(** A running percent animation has both key values, the end value in
    a set [E]. *)
Definition keyed (E : F -> Prop) (w : BatteryWidget F) : Prop :=
  state (animation w) = Running ->
  exists s e, startValue (animation w) = Some s /\
              endValue (animation w) = Some e /\ E e.

(** A poll whose target, if it has one, is in [E]. *)
Definition event_ok (E : F -> Prop) (ev : Event F) : Prop :=
  match ev with
  | TimerTimeout (Ok b) => forall n, target b = Ok n -> E (of_int n)
  | _ => True
  end.

(** The pulse scale at group clock [t], and the displayed percent at
    clock [t] of an animation from [s] to [e]. *)
Definition pulse_value (t : Z) : F :=
  if (t <? 150)%Z
  then interpolated (of_int 1) (literal 11 10)
         (valueForProgress OutCubic (of_int t / of_int 150)%py)
  else interpolated (literal 11 10) (of_int 1)
         (valueForProgress InCubic (of_int (Z.min (t - 150) 250) / of_int 250)%py).

Definition percent_value (s e : F) (t : Z) : F :=
  interpolated s e (valueForProgress OutCubic (of_int t / of_int 1000)%py).

(** Events that are neither a poll nor a dismissal. *)
Definition quiet (ev : Event F) : bool :=
  match ev with
  | TimerTimeout _ => false
  | AnimationTick _ => true
  | PaintEvent => true
  | MousePress b => negb (button_eqb b RightButton)
  end.

(** Milliseconds of animation clock in a run of events. *)
Definition elapsed (events : list (Event F)) : Z :=
  fold_right (fun ev acc => match ev with
                            | AnimationTick dt => Z.of_N dt + acc
                            | _ => acc
                            end) 0 events.


(** *** Reading a painted frame *)

Definition arcs (d : list (Drawn F)) : list (QRectF F * Number F * Number F) :=
  flat_map (fun x => match shape x with
                     | Arc r a alen => [(r, a, alen)]
                     | _ => []
                     end) d.

Definition rounded_rects (d : list (Drawn F)) : list (QRectF F) :=
  flat_map (fun x => match shape x with
                     | RoundedRect r _ _ => [r]
                     | _ => []
                     end) d.

Definition texts (d : list (Drawn F)) : list string :=
  flat_map (fun x => match shape x with
                     | Text _ _ s => [s]
                     | _ => []
                     end) d.


Definition brush_stops (b : QBrush F) : list (list (Z * QColor)) :=
  match b with
  | LinearGradientPattern g => [gradStops g]
  | _ => []
  end.

(** The gradients a frame uses, in drawing order: the progress arc's
    pen, then the battery glyph's fill. *)
Definition gradients (d : list (Drawn F)) : list (list (Z * QColor)) :=
  flat_map (fun x => (brush_stops (penBrush (stroke x)) ++ brush_stops (fill x))%list) d.

Definition pair_stops (pair : string * string) : list (Z * QColor) :=
  [(0, ColorName (fst pair)); (1, ColorName (snd pair))].

Definition green : string * string := ("#69F0AE", "#00C853").
Definition red : string * string := ("#F44336", "#D32F2F").
Definition amber : string * string := ("#FFC107", "#FFA000").
Definition cyan : string * string := ("#00E5FF", "#00B8D4").

(** The color pair of lines 90 to 97. *)
Definition color_pair_of (w : BatteryWidget F) : string * string :=
  if truth (plugged w) then green
  else if (_animated_percent w <? of_int 20)%py then red
  else if (_animated_percent w <? of_int 50)%py then amber
  else cyan.

(** The frame [paintEvent] draws. *)
Definition frame (w : BatteryWidget F) : list (Drawn F) := drawn (fst (paintEvent w)).

(** *** Sample inputs *)

Definition reading (x : F) (plug : bool) : SensorRead F :=
  Ok (Some {| percent := x; power_plugged := PyBool plug |}).

(** A widget showing [x] percent with plugged flag [v]. *)
Definition showing (x : F) (v : PyValue) : BatteryWidget F :=
  with_plugged v (with_animated_percent x (initAnimation (initUI 1920 fresh))).

End Notions.

(** The program started on a 1920 px wide screen with a battery at 80
    percent, on mains or not. *)
Definition started_b64 (plug : bool) : Process float :=
  main 1920 (reading (of_int 80) plug).

Definition started_exact (plug : bool) : Process Qc :=
  main 1920 (reading (of_int 80) plug).


(** The integers 0..100, and a property checked on each element of a
    list. *)
Definition hundred : list Z := map Z.of_nat (seq 0 101).

Fixpoint all_of {A : Type} (P : A -> Prop) (l : list A) : Prop :=
  match l with
  | [] => True
  | x :: r => P x /\ all_of P r
  end.

(** *** Notions for the properties beyond the claims *)

Section MoreNotions.
Context {F : Type} {PF : PyFloat F}.

(** The message a poll prints, if the read or [int(battery.percent)]
    raises. *)
Definition failure (r : SensorRead F) : option string :=
  match r with
  | Raise msg => Some msg
  | Ok None => None
  | Ok (Some b) =>
      match py_int (percent b) with
      | Raise msg => Some msg
      | Ok _ => None
      end
  end.

(** The lines the polls among the events print, in order. *)
Definition error_lines (events : list (Event F)) : list string :=
  flat_map (fun ev => match ev with
                      | TimerTimeout r =>
                          match failure r with
                          | Some msg => ["Error fetching battery info: " ++ msg]
                          | None => []
                          end
                      | _ => []
                      end) events.

(** No poll among the events succeeds. *)
Definition no_reading (ev : Event F) : bool :=
  match ev with
  | TimerTimeout r => match failure r with Some _ => true | None => false end
  | _ => true
  end.



(** What [initUI] gives the window. *)
Definition window (w : BatteryWidget F) :=
  (width (base w), height (base w), pos (base w),
   (windowFlags (base w), WA_TranslucentBackground (base w), WA_QuitOnClose (base w))).

(** The widget as [__init__] leaves it when the first read fails. *)
Definition idle (w : BatteryWidget F) : Prop :=
  state (animation w) = Stopped
  /\ groupState (pulse_animation_group w) = Stopped
  /\ _animated_percent w = of_int 0
  /\ _pulse_scale w = of_int 1
  /\ plugged w = PyBool false
  /\ prev_plugged w = PyBool false.

End MoreNotions.



Ltac break_match :=
  match goal with
  | |- context [match ?x with _ => _ end] => destruct x eqn:?
  end.

Ltac unfold_qt :=
  unfold pulse_animation_group_start, animation_start, animation_stop,
    advance, advance_pulse, advance_animation,
    updateGroupValue, updateCurrentValue, setProperty,
    set_animated_percent, set_pulse_scale.

Ltac open_widget w :=
  let q := fresh "q" in let a := fresh "a" in let g := fresh "g" in
  destruct w as [q ? ? ? ? a g ?]; destruct q, a, g.

Ltac use_configured H :=
  unfold configured, config in H; cbn in H; inversion H; subst; clear H.

(* ================================================================== *)
(** ** Facts about the widget, in any arithmetic *)

Section Facts.
Context {F : Type} {PF : PyFloat F}.

Lemma plugged_pulse_start (w : BatteryWidget F) :
  plugged (pulse_animation_group_start w) = plugged w.
Proof. unfold_qt. repeat break_match; reflexivity. Qed.

Lemma update_battery_info_ok (b : option (sbattery F)) (n : Z) (p : Process F) :
  target b = Ok n ->
  update_battery_info (Ok b) p = (Ok tt, with_self (polled (read_plugged b) n (self p)) p).
Proof.
  intros Ht.
  unfold update_battery_info, try_except, bind, call, get_self, modify, ret, polled, with_self.
  destruct b as [b|]; cbn [target read_plugged] in *.
  - rewrite Ht. cbn [self stdout screen exec_running plugged prev_plugged with_plugged].
    destruct (truth (power_plugged b) && negb (truth (prev_plugged (self p))));
      cbn [self stdout screen exec_running]; rewrite ?plugged_pulse_start; reflexivity.
  - injection Ht as <-.
    cbn [self stdout screen exec_running plugged prev_plugged with_plugged truth andb].
    reflexivity.
Qed.

Lemma update_battery_info_raises (msg : string) (p : Process F) :
  update_battery_info (Raise msg) p
  = (Ok tt, printed ("Error fetching battery info: " ++ msg) p).
Proof. reflexivity. Qed.

Lemma update_battery_info_int_raises (b : sbattery F) (msg : string) (p : Process F) :
  py_int (percent b) = Raise msg ->
  update_battery_info (Ok (Some b)) p
  = (Ok tt, printed ("Error fetching battery info: " ++ msg) p).
Proof.
  intros H. unfold update_battery_info, try_except, bind, call.
  rewrite H. reflexivity.
Qed.

(** Every poll ends in one of two ways. *)
Lemma update_battery_info_cases (r : SensorRead F) (p : Process F) :
  (exists msg, update_battery_info r p
               = (Ok tt, printed ("Error fetching battery info: " ++ msg) p))
  \/ (exists b n, r = Ok b /\ target b = Ok n /\
        update_battery_info r p
        = (Ok tt, with_self (polled (read_plugged b) n (self p)) p)).
Proof.
  destruct r as [b|msg].
  - destruct (target b) as [n|msg] eqn:Ht.
    + right. exists b, n. auto using update_battery_info_ok.
    + left. exists msg. destruct b as [b|]; [|discriminate].
      now apply update_battery_info_int_raises.
  - left. exists msg. reflexivity.
Qed.

(** *** What the widget keeps fixed while it runs *)

Lemma animationAt_the_pulse (t : Z) :
  animationAt the_pulse t
  = if (t <? 150)%Z then Some (anim_grow, t)
    else Some (anim_shrink, Z.min (t - 150) 250).
Proof. reflexivity. Qed.

Lemma totalDuration_the_pulse (g : QSequentialAnimationGroup F) :
  animations g = the_pulse -> totalDuration g = 400.
Proof. unfold totalDuration. intros ->. reflexivity. Qed.

Lemma pulse_start_fields (w : BatteryWidget F) :
  animations (pulse_animation_group w) = the_pulse ->
  let w' := pulse_animation_group_start w in
  animation w' = animation w /\ _animated_percent w' = _animated_percent w /\
  plugged w' = plugged w /\ prev_plugged w' = prev_plugged w /\
  timer w' = timer w /\
  animations (pulse_animation_group w') = the_pulse /\
  WA_QuitOnClose (base w') = WA_QuitOnClose (base w) /\
  width (base w') = width (base w) /\ height (base w') = height (base w) /\
  visible (base w') = visible (base w).
Proof.
  intros Hg. unfold_qt.
  destruct (groupState (pulse_animation_group w)); [|now repeat split].
  cbn [animations group_at_time pulse_animation_group with_pulse_animation_group].
  rewrite Hg, animationAt_the_pulse. cbn [Z.ltb Z.compare].
  destruct (valueAt anim_grow 0); cbn; now repeat split.
Qed.

Lemma polled_fields (v : PyValue) (n : Z) (w : BatteryWidget F) :
  animations (pulse_animation_group w) = the_pulse ->
  let w' := polled v n w in
  plugged w' = v /\ prev_plugged w' = v /\ timer w' = timer w /\
  animations (pulse_animation_group w') = the_pulse /\
  WA_QuitOnClose (base w') = WA_QuitOnClose (base w) /\
  width (base w') = width (base w) /\ height (base w') = height (base w) /\
  visible (base w') = visible (base w) /\
  animation w'
  = {| propertyName := propertyName (animation w);
       duration := duration (animation w);
       easingCurve := easingCurve (animation w);
       startValue := Some (_animated_percent w);
       endValue := Some (of_int n);
       state := Running; currentTime := 0 |}.
Proof.
  intros Hg. unfold polled.
  set (w2 := if truth v && negb (truth (prev_plugged w)) then _ else _).
  assert (H2 : animation w2 = animation w /\ _animated_percent w2 = _animated_percent w /\
               plugged w2 = v /\ timer w2 = timer w /\
               animations (pulse_animation_group w2) = the_pulse /\
               WA_QuitOnClose (base w2) = WA_QuitOnClose (base w) /\
               width (base w2) = width (base w) /\ height (base w2) = height (base w) /\
               visible (base w2) = visible (base w)).
  { subst w2. destruct (truth v && negb (truth (prev_plugged w))).
    - destruct (pulse_start_fields (with_plugged v w) Hg)
        as (?&?&?&?&?&?&?&?&?&?). now repeat split.
    - now repeat split. }
  destruct H2 as (Ha & Hp & Hpl & Ht & Hg2 & Hq & Hw & Hh & Hv).
  clearbody w2. unfold_qt.
  cbn [animation with_animation with_prev_plugged at_time state setEndValue
       setStartValue _animated_percent propertyName].
  rewrite Ha, Hp.
  destruct (valueAt _ 0); destruct (propertyName (animation w)) eqn:Hn;
    unfold at_time, setEndValue, setStartValue; cbn; rewrite ?Hn; now repeat split.
Qed.


Lemma configured_fields (w : BatteryWidget F) :
  configured w ->
  propertyName (animation w) = animated_percent /\
  duration (animation w) = 1000 /\
  easingCurve (animation w) = OutCubic /\
  animations (pulse_animation_group w) = the_pulse /\
  WA_QuitOnClose (base w) = false /\
  width (base w) = 120 /\ height (base w) = 120.
Proof.
  unfold configured, config. intros H.
  injection H as H1 H2 H3 H4 H5 H6 H7. now repeat split.
Qed.

Lemma configured_pulse (w : BatteryWidget F) :
  configured w -> animations (pulse_animation_group w) = the_pulse.
Proof. unfold configured, config. intros H. now inversion H. Qed.

Lemma config_pulse_start (w : BatteryWidget F) :
  configured w -> config (pulse_animation_group_start w) = config w.
Proof.
  intros H. open_widget w. use_configured H. unfold_qt. cbn.
  repeat break_match; reflexivity.
Qed.

Lemma config_polled (v : PyValue) (n : Z) (w : BatteryWidget F) :
  configured w -> config (polled v n w) = config w.
Proof.
  intros H. destruct (polled_fields v n w (configured_pulse H))
    as (_ & _ & _ & Hg & Hq & Hw & Hh & _ & Ha).
  unfold config. rewrite Ha, Hg, Hq, Hw, Hh, (configured_pulse H). reflexivity.
Qed.

Lemma config_advance (dt : Z) (w : BatteryWidget F) :
  configured w -> config (advance dt w) = config w.
Proof.
  intros H. open_widget w. use_configured H. unfold_qt.
  cbn -[Z.min Z.ltb Z.add].
  repeat (break_match; cbn -[Z.min Z.ltb Z.add]); reflexivity.
Qed.

Lemma timer_advance (dt : Z) (w : BatteryWidget F) :
  timer (advance dt w) = timer w.
Proof.
  unfold_qt. cbn -[Z.min Z.ltb Z.add].
  repeat (break_match; cbn -[Z.min Z.ltb Z.add]); reflexivity.
Qed.

Lemma Inv_timer_active (p : Process F) : Inv p -> timer_active (self p) = true.
Proof. intros [_ H]. unfold timer_active. now rewrite H. Qed.

Lemma update_battery_info_Inv (r : SensorRead F) (p : Process F) :
  configured (self p) ->
  configured (self (snd (update_battery_info r p)))
  /\ timer (self (snd (update_battery_info r p))) = timer (self p).
Proof.
  intros Hc.
  destruct (update_battery_info_cases r p) as [[msg ->]|(b & n & -> & Ht & ->)].
  - now split.
  - cbn [snd self with_self]. split.
    + unfold configured. now rewrite config_polled.
    + now destruct (polled_fields (read_plugged b) n (self p) (configured_pulse Hc))
        as (_ & _ & ? & _).
Qed.

Lemma mousePressEvent_Inv (b : MouseButton) (p : Process F) :
  Inv p -> Inv (snd (mousePressEvent b p)).
Proof.
  intros [Hc Ht]. unfold mousePressEvent, close, bind, ret.
  destruct (button_eqb b RightButton); [|now split].
  destruct (visible (base (self p))); [|now split].
  cbn [snd self]. split; [|exact Ht].
  destruct p as [w ? ? ?]. cbn [self] in *. open_widget w. exact Hc.
Qed.

Lemma dispatch_Inv (e : Event F) (p : Process F) : Inv p -> Inv (dispatch e p).
Proof.
  intros HI. pose proof HI as [Hc Ht]. unfold dispatch.
  destruct (exec_running p); [|exact HI].
  destruct e as [r|dt| |b].
  - destruct (timer_active (self p)); [|exact HI].
    destruct (update_battery_info_Inv r p Hc) as [H1 H2].
    split; [exact H1|now rewrite H2].
  - unfold modify. cbn [snd]. split; cbn [self].
    + unfold configured. now rewrite config_advance.
    + now rewrite timer_advance.
  - destruct (visible (base (self p))); [|exact HI].
    cbn [self]. split; [|exact Ht].
    destruct p as [w ? ? ?]. cbn [self] in *. open_widget w. exact Hc.
  - destruct (visible (base (self p))); [|exact HI].
    now apply mousePressEvent_Inv.
Qed.

Lemma run_Inv (events : list (Event F)) (p : Process F) :
  Inv p -> Inv (run events p).
Proof.
  revert p. induction events as [|e es IH]; intros p H; [exact H|].
  apply IH, dispatch_Inv, H.
Qed.

Lemma main_Inv (screen_width : Z) (r : SensorRead F) : Inv (main screen_width r).
Proof.
  unfold main, __init__, show, bind, modify.
  cbn [self stdout screen exec_running snd].
  set (p0 := {| self := initAnimation (initUI screen_width fresh);
                stdout := []; screen := []; exec_running := false |}).
  assert (Hc : configured (self p0)) by reflexivity.
  destruct (update_battery_info_Inv r p0 Hc) as [H1 _].
  destruct (update_battery_info_cases r p0) as [[msg E]|(b & n & -> & Ht & E)];
    rewrite E in *; cbn [snd self stdout screen exec_running printed with_self] in *.
  - split; reflexivity.
  - split; [|reflexivity].
    set (w := polled _ _ _) in *. clearbody w. open_widget w. exact H1.
Qed.


(** *** The poll, field by field *)

Lemma polled_pulse (v : PyValue) (n : Z) (w : BatteryWidget F) :
  configured w ->
  let g := pulse_animation_group w in
  let started := plugged_in_now v w &&
                 match groupState g with Stopped => true | Running => false end in
  pulse_animation_group (polled v n w)
  = (if started then group_at_time Running 0 g else g)
  /\ _pulse_scale (polled v n w)
     = (if started then pulse_value 0 else _pulse_scale w).
Proof.
  intros H. open_widget w. use_configured H.
  unfold polled, plugged_in_now. cbn [prev_plugged].
  destruct (truth v && negb (truth prev_plugged0)); cbn [andb];
    [destruct groupState0|]; unfold_qt; cbn; split; reflexivity.
Qed.

Lemma polled_percent (v : PyValue) (n : Z) (w : BatteryWidget F) :
  configured w ->
  _animated_percent (polled v n w)
  = percent_value (_animated_percent w) (of_int n) 0.
Proof.
  intros H. open_widget w. use_configured H.
  unfold polled. cbn [prev_plugged].
  destruct (truth v && negb (truth prev_plugged0));
    [destruct groupState0|]; unfold_qt; cbn; reflexivity.
Qed.

(** *** The animation clock, field by field *)

Lemma valueAt_percent (a : QPropertyAnimation F) (t : Z) (s e : F) :
  duration a = 1000 -> easingCurve a = OutCubic ->
  startValue a = Some s -> endValue a = Some e ->
  valueAt a t = Some (percent_value s e t).
Proof. unfold valueAt. intros -> -> -> ->. reflexivity. Qed.

Lemma valueAt_grow (t : Z) :
  valueAt anim_grow t
  = Some (interpolated (of_int 1) (literal 11 10)
            (valueForProgress OutCubic (of_int t / of_int 150)%py)).
Proof. reflexivity. Qed.

Lemma valueAt_shrink (t : Z) :
  valueAt anim_shrink t
  = Some (interpolated (literal 11 10) (of_int 1)
            (valueForProgress InCubic (of_int t / of_int 250)%py)).
Proof. reflexivity. Qed.

(** The percent animation leaves the pulse alone, and conversely. *)
Lemma advance_animation_frame (dt : Z) (w : BatteryWidget F) :
  propertyName (animation w) = animated_percent ->
  let w' := advance_animation dt w in
  pulse_animation_group w' = pulse_animation_group w /\
  _pulse_scale w' = _pulse_scale w /\
  plugged w' = plugged w /\ prev_plugged w' = prev_plugged w /\
  visible (base w') = visible (base w).
Proof.
  intros Hn. unfold advance_animation, updateCurrentValue.
  destruct (state (animation w)); [now repeat split|].
  cbn [propertyName at_time]. rewrite Hn.
  destruct (valueAt _ _); destruct (_ <? _)%Z; cbn; now repeat split.
Qed.

Lemma advance_pulse_frame (dt : Z) (w : BatteryWidget F) :
  animations (pulse_animation_group w) = the_pulse ->
  let w' := advance_pulse dt w in
  animation w' = animation w /\
  _animated_percent w' = _animated_percent w /\
  plugged w' = plugged w /\ prev_plugged w' = prev_plugged w /\
  visible (base w') = visible (base w).
Proof.
  intros Hg. unfold advance_pulse, updateGroupValue.
  destruct (groupState (pulse_animation_group w)); [now repeat split|].
  rewrite Hg, animationAt_the_pulse, (@totalDuration_the_pulse _ Hg).
  unfold updateCurrentValue.
  destruct (_ <? 150)%Z; rewrite ?valueAt_grow, ?valueAt_shrink;
    destruct (_ <? 400)%Z; cbn; now repeat split.
Qed.

Lemma advance_percent_running (dt : Z) (w : BatteryWidget F) (s e : F) :
  configured w ->
  state (animation w) = Running ->
  startValue (animation w) = Some s ->
  endValue (animation w) = Some e ->
  let t := Z.min (currentTime (animation w) + dt) 1000 in
  animation (advance dt w)
  = at_time (if (t <? 1000)%Z then Running else Stopped) t (animation w)
  /\ _animated_percent (advance dt w) = percent_value s e t.
Proof.
  intros H Hr Hs He t. pose proof (configured_pulse H) as Hg.
  destruct (configured_fields H) as (Hn & Hd & Hc & _).
  assert (E : animation (advance_animation dt w)
              = at_time (if (t <? 1000)%Z then Running else Stopped) t (animation w)
              /\ _animated_percent (advance_animation dt w) = percent_value s e t
              /\ pulse_animation_group (advance_animation dt w) = pulse_animation_group w).
  { unfold advance_animation, updateCurrentValue. rewrite Hr.
    rewrite Hd. fold t. rewrite (@valueAt_percent (animation w) t s e Hd Hc Hs He), Hn.
    destruct (t <? 1000)%Z; cbn; repeat split; reflexivity. }
  destruct E as (E1 & E2 & E3). unfold advance.
  destruct (advance_pulse_frame dt (advance_animation dt w)) as (A1 & A2 & _).
  { now rewrite E3. }
  now rewrite A1, A2.
Qed.

Lemma advance_percent_stopped (dt : Z) (w : BatteryWidget F) :
  configured w ->
  state (animation w) = Stopped ->
  animation (advance dt w) = animation w
  /\ _animated_percent (advance dt w) = _animated_percent w.
Proof.
  intros H Hs. pose proof (configured_pulse H) as Hg. unfold advance.
  assert (E : advance_animation dt w = w).
  { unfold advance_animation. now rewrite Hs. }
  rewrite E. now destruct (advance_pulse_frame dt w Hg) as (? & ? & _).
Qed.

Lemma advance_pulse_running (dt : Z) (w : BatteryWidget F) :
  configured w ->
  groupState (pulse_animation_group w) = Running ->
  let g := pulse_animation_group w in
  let t := Z.min (groupTime g + dt) 400 in
  pulse_animation_group (advance dt w)
  = group_at_time (if (t <? 400)%Z then Running else Stopped) t g
  /\ _pulse_scale (advance dt w) = pulse_value t.
Proof.
  intros H Hr g t. pose proof (configured_pulse H) as Hg.
  destruct (configured_fields H) as (Hn & Hd & Hc & _).
  destruct (advance_animation_frame dt w Hn) as (A1 & A2 & _).
  unfold advance, advance_pulse, updateGroupValue. rewrite A1, Hr.
  rewrite Hg, animationAt_the_pulse, (@totalDuration_the_pulse _ Hg).
  fold g t. unfold updateCurrentValue, pulse_value.
  destruct (t <? 150)%Z; rewrite ?valueAt_grow, ?valueAt_shrink;
    destruct (t <? 400)%Z; cbn; split; reflexivity.
Qed.

Lemma advance_pulse_stopped (dt : Z) (w : BatteryWidget F) :
  configured w ->
  groupState (pulse_animation_group w) = Stopped ->
  pulse_animation_group (advance dt w) = pulse_animation_group w
  /\ _pulse_scale (advance dt w) = _pulse_scale w.
Proof.
  intros H Hs.
  destruct (configured_fields H) as (Hn & Hd & Hc & _).
  destruct (advance_animation_frame dt w Hn) as (A1 & A2 & _).
  unfold advance, advance_pulse. now rewrite A1, Hs.
Qed.


Lemma dispatch_quiet (e : Event F) (p : Process F) :
  quiet e = true -> exec_running p = true ->
  exec_running (dispatch e p) = true /\
  ((exists dt, e = AnimationTick dt /\ self (dispatch e p) = advance (Z.of_N dt) (self p))
   \/ (elapsed [e] = 0 /\
       animation (self (dispatch e p)) = animation (self p) /\
       _animated_percent (self (dispatch e p)) = _animated_percent (self p) /\
       pulse_animation_group (self (dispatch e p)) = pulse_animation_group (self p) /\
       _pulse_scale (self (dispatch e p)) = _pulse_scale (self p))).
Proof.
  intros Hq Hr. unfold dispatch. rewrite Hr.
  destruct e as [r|dt| |b]; [discriminate| | |].
  - split; [exact Hr|]. left. exists dt. split; reflexivity.
  - destruct (visible (base (self p)));
      (split; [reflexivity || exact Hr|]); right; now repeat split.
  - cbn in Hq. unfold mousePressEvent.
    destruct (button_eqb b RightButton); [discriminate|].
    destruct (visible (base (self p)));
      (split; [reflexivity || exact Hr|]); right; now repeat split.
Qed.

Lemma run_cons (e : Event F) (es : list (Event F)) (p : Process F) :
  run (e :: es) p = run es (dispatch e p).
Proof. reflexivity. Qed.

(** Once the percent animation has stopped, quiet events leave the
    displayed percent where it is. *)
Lemma settled_stays (events : list (Event F)) (p : Process F) :
  Inv p -> exec_running p = true ->
  forallb quiet events = true ->
  state (animation (self p)) = Stopped ->
  state (animation (self (run events p))) = Stopped /\
  _animated_percent (self (run events p)) = _animated_percent (self p).
Proof.
  revert p. induction events as [|ev es IH]; intros p HI Hr Hq Hs; [now split|].
  cbn [forallb] in Hq. apply andb_prop in Hq as [Hq1 Hq2].
  rewrite run_cons.
  destruct (dispatch_quiet ev p Hq1 Hr) as [Hr' [(dt & -> & E)|(_ & Ea & Ep & _)]].
  - destruct (advance_percent_stopped (Z.of_N dt) (proj1 HI) Hs) as [A1 A2].
    destruct (IH (dispatch (AnimationTick dt) p)) as [I1 I2];
      auto using dispatch_Inv.
    + now rewrite E, A1.
    + split; [exact I1|]. now rewrite I2, E, A2.
  - destruct (IH (dispatch ev p)) as [I1 I2]; auto using dispatch_Inv.
    + now rewrite Ea.
    + split; [exact I1|]. now rewrite I2.
Qed.

(** A running percent animation reaches its end value once the clock
    has covered what is left of its 1000 ms. *)
Lemma percent_settles (events : list (Event F)) (p : Process F) (s e : F) :
  percent_value s e 1000 = e ->
  Inv p -> exec_running p = true ->
  forallb quiet events = true ->
  state (animation (self p)) = Running ->
  startValue (animation (self p)) = Some s ->
  endValue (animation (self p)) = Some e ->
  currentTime (animation (self p)) < 1000 ->
  1000 <= currentTime (animation (self p)) + elapsed events ->
  state (animation (self (run events p))) = Stopped /\
  _animated_percent (self (run events p)) = e.
Proof.
  intros Hend. revert p.
  induction events as [|ev es IH]; intros p HI Hr Hq Hs Hs1 He Hlt Hge.
  { cbn in Hge. lia. }
  cbn [forallb] in Hq. apply andb_prop in Hq as [Hq1 Hq2].
  rewrite run_cons.
  destruct (dispatch_quiet ev p Hq1 Hr) as [Hr' [(dt & -> & E)|(E0 & Ea & Ep & _)]].
  - destruct (advance_percent_running (Z.of_N dt) (proj1 HI) Hs Hs1 He) as [A1 A2].
    cbn [elapsed fold_right] in Hge. fold (elapsed es) in Hge.
    set (t := Z.min (currentTime (animation (self p)) + Z.of_N dt) 1000) in *.
    destruct (t <? 1000)%Z eqn:Et.
    + apply Z.ltb_lt in Et.
      apply (IH (dispatch (AnimationTick dt) p)); auto using dispatch_Inv;
        rewrite E, A1; cbn [state startValue endValue currentTime at_time]; auto.
      subst t. lia.
    + apply Z.ltb_ge in Et. assert (t = 1000) by (subst t; lia).
      destruct (@settled_stays es (dispatch (AnimationTick dt) p)) as [S1 S2];
        auto using dispatch_Inv.
      { now rewrite E, A1. }
      split; [exact S1|]. rewrite S2, E, A2. now replace t with 1000.
  - assert (elapsed (ev :: es) = elapsed es) as Eel.
    { cbn [elapsed fold_right] in *. destruct ev; try reflexivity.
      fold (elapsed es). lia. }
    apply (IH (dispatch ev p)); auto using dispatch_Inv; rewrite Ea; auto.
    now rewrite <- Eel.
Qed.




(** *** Steps of the event loop, seen from the two animations *)

Lemma mousePressEvent_self (b : MouseButton) (p : Process F) :
  let w' := self (snd (mousePressEvent b p)) in
  w' = self p \/ w' = with_base (setVisible false (base (self p))) (self p).
Proof.
  unfold mousePressEvent, close, bind, ret.
  destruct (button_eqb b RightButton); [|now left].
  destruct (visible (base (self p))); [now right|now left].
Qed.

(** A step that is not an animation tick leaves both animated values
    alone unless it is a successful poll. *)
Lemma dispatch_cases (ev : Event F) (p : Process F) :
  Inv p ->
  (animation (self (dispatch ev p)) = animation (self p) /\
   _animated_percent (self (dispatch ev p)) = _animated_percent (self p) /\
   pulse_animation_group (self (dispatch ev p)) = pulse_animation_group (self p) /\
   _pulse_scale (self (dispatch ev p)) = _pulse_scale (self p))
  \/ (exists dt, ev = AnimationTick dt /\
        self (dispatch ev p) = advance (Z.of_N dt) (self p))
  \/ (exists b n, ev = TimerTimeout (Ok b) /\ target b = Ok n /\
        self (dispatch ev p) = polled (read_plugged b) n (self p)).
Proof.
  intros HI. unfold dispatch.
  destruct (exec_running p); [|left; now repeat split].
  destruct ev as [r|dt| |b].
  - rewrite (Inv_timer_active HI).
    destruct (update_battery_info_cases r p) as [[msg ->]|(b & n & -> & Ht & ->)].
    + left. now repeat split.
    + right. right. exists b, n. now repeat split.
  - right. left. exists dt. now split.
  - left. destruct (visible (base (self p))); now repeat split.
  - left. destruct (visible (base (self p))); [|now repeat split].
    destruct (mousePressEvent_self b p) as [-> | ->]; now repeat split.
Qed.

Lemma dispatch_keyed (E : F -> Prop) (ev : Event F) (p : Process F) :
  Inv p -> keyed E (self p) -> event_ok E ev -> keyed E (self (dispatch ev p)).
Proof.
  intros HI Hk Hok.
  destruct (dispatch_cases ev HI)
    as [(Ea & _)|[(dt & -> & E1)|(b & n & -> & Ht & E1)]]; unfold keyed.
  - rewrite Ea. exact Hk.
  - rewrite E1. intros Hr.
    destruct (state (animation (self p))) eqn:Hs.
    + destruct (advance_percent_stopped (Z.of_N dt) (proj1 HI) Hs) as [A _].
      rewrite A, Hs in Hr. discriminate.
    + destruct (Hk Hs) as (s & e & Hs1 & He & HE).
      destruct (advance_percent_running (Z.of_N dt) (proj1 HI) Hs Hs1 He) as [A _].
      rewrite A. exists s, e. now repeat split.
  - rewrite E1. intros _.
    destruct (polled_fields (read_plugged b) n (self p) (configured_pulse (proj1 HI)))
      as (_ & _ & _ & _ & _ & _ & _ & _ & Ha).
    rewrite Ha. cbn [startValue endValue].
    exists (_animated_percent (self p)), (of_int n). repeat split. now apply Hok.
Qed.

Lemma run_keyed (E : F -> Prop) (events : list (Event F)) (p : Process F) :
  Inv p -> keyed E (self p) -> Forall (event_ok E) events ->
  keyed E (self (run events p)).
Proof.
  revert p. induction events as [|ev es IH]; intros p HI Hk Hok; [exact Hk|].
  inversion Hok as [|? ? H1 H2]; subst. rewrite run_cons.
  apply IH; auto using dispatch_Inv, dispatch_keyed.
Qed.

Lemma main_keyed (E : F -> Prop) (screen_width : Z) (r : SensorRead F) :
  event_ok E (TimerTimeout r) -> keyed E (self (main screen_width r)).
Proof.
  intros Hok. unfold main, __init__, show, bind, modify.
  cbn [self stdout screen exec_running snd].
  set (p0 := {| self := initAnimation (initUI screen_width fresh);
                stdout := []; screen := []; exec_running := false |}).
  destruct (update_battery_info_cases r p0) as [[msg E1]|(b & n & -> & Ht & E1)];
    rewrite E1; cbn [snd self stdout screen exec_running printed with_self];
    unfold keyed; cbn [animation with_timer with_base].
  - discriminate.
  - intros _.
    destruct (polled_fields (read_plugged b) n (self p0) eq_refl)
      as (_ & _ & _ & _ & _ & _ & _ & _ & Ha).
    rewrite Ha. cbn [startValue endValue].
    exists (_animated_percent (self p0)), (of_int n). repeat split. now apply Hok.
Qed.



(** *** The painted frame *)

Lemma frame_gradients (w : BatteryWidget F) :
  gradients (frame w) = [pair_stops (color_pair_of w); pair_stops (color_pair_of w)].
Proof.
  unfold frame, paintEvent, color_pair_of, draw_battery_icon.
  destruct (truth (plugged w)); [|destruct (_ <? of_int 20)%py; [|destruct (_ <? _)%py]];
    destruct (py_int _); reflexivity.
Qed.


Lemma frame_arcs (w : BatteryWidget F) :
  exists r,
    arcs (frame w)
    = [(r, Int (90 * 16), Int (360 * 16));
       (r, Int (90 * 16),
        Float (- _animated_percent w / of_int 100 * of_int (360 * 16))%py)].
Proof.
  unfold frame, paintEvent, draw_battery_icon. eexists.
  destruct (truth (plugged w)); [|destruct (_ <? of_int 20)%py; [|destruct (_ <? _)%py]];
    destruct (py_int _); reflexivity.
Qed.

Lemma frame_texts (w : BatteryWidget F) :
  texts (frame w)
  = match py_int (_animated_percent w) with
    | Ok n => [py_str n ++ "%"]
    | Raise _ => []
    end.
Proof.
  unfold frame, paintEvent, draw_battery_icon.
  destruct (truth (plugged w)); [|destruct (_ <? of_int 20)%py; [|destruct (_ <? _)%py]];
    destruct (py_int _); reflexivity.
Qed.

Lemma frame_fill_height (w : BatteryWidget F) :
  map (@rh F) (rounded_rects (frame w))
  = [of_int 45; of_int 4;
     ((of_int 45 - of_int 4) * (_animated_percent w / of_int 100))%py].
Proof.
  unfold frame, paintEvent, draw_battery_icon.
  destruct (truth (plugged w)); [|destruct (_ <? of_int 20)%py; [|destruct (_ <? _)%py]];
    destruct (py_int _); reflexivity.
Qed.


(** The frame does not look at the animation objects, where the
    target of the last reading is kept. *)
Lemma paintEvent_ignores_animations (a : QPropertyAnimation F)
  (g : QSequentialAnimationGroup F) (w : BatteryWidget F) :
  paintEvent (with_animation a (with_pulse_animation_group g w)) = paintEvent w.
Proof. reflexivity. Qed.

(** A poll leaves the process running and only appends to [stdout]
    when it fails. *)
Lemma update_battery_info_returns (r : SensorRead F) (p : Process F) :
  fst (update_battery_info r p) = Ok tt /\
  exec_running (snd (update_battery_info r p)) = exec_running p.
Proof.
  destruct (update_battery_info_cases r p) as [[msg ->]|(b & n & -> & Ht & ->)];
    now split.
Qed.

(** What a poll does to the widget does not depend on what has been
    printed before. *)
Lemma update_battery_info_after_print (r : SensorRead F) (line : string) (p : Process F) :
  self (snd (update_battery_info r (printed line p)))
  = self (snd (update_battery_info r p)).
Proof.
  destruct r as [b|msg]; [|reflexivity].
  destruct (target b) as [n|msg] eqn:Ht.
  - now rewrite !(update_battery_info_ok _ _ Ht).
  - destruct b as [b|]; [|discriminate].
    now rewrite !(update_battery_info_int_raises _ _ Ht).
Qed.

End Facts.

(* ================================================================== *)
(** ** Facts of the two arithmetics *)





Lemma Qc_interpolated_one (s e : Qc) : interpolated s e (of_int 1) = e.
Proof.
  unfold interpolated. cbn [fadd fsub fmul of_int Exact].
  replace (Qc_of_int 1) with 1%Qc by (apply Qc_is_canon; reflexivity).
  ring.
Qed.

Lemma Qc_interpolated_zero (s e : Qc) : interpolated s e (of_int 0) = s.
Proof.
  unfold interpolated. cbn [fadd fsub fmul of_int Exact].
  replace (Qc_of_int 0) with 0%Qc by (apply Qc_is_canon; reflexivity).
  ring.
Qed.

Lemma Qc_out_cubic_end : valueForProgress OutCubic (of_int 1000 / of_int 1000)%py = (of_int 1 : Qc).
Proof. apply Qc_is_canon. vm_compute. reflexivity. Qed.

Lemma Qc_out_cubic_start : valueForProgress OutCubic (of_int 0 / of_int 1000)%py = (of_int 0 : Qc).
Proof. apply Qc_is_canon. vm_compute. reflexivity. Qed.

Lemma Qc_percent_value_end (s e : Qc) : percent_value s e 1000 = e.
Proof. unfold percent_value. rewrite Qc_out_cubic_end. apply Qc_interpolated_one. Qed.

Lemma Qc_percent_value_start (s e : Qc) : percent_value s e 0 = s.
Proof. unfold percent_value. rewrite Qc_out_cubic_start. apply Qc_interpolated_zero. Qed.


Lemma Qc_pulse_value_start : pulse_value 0 = (of_int 1 : Qc).
Proof. apply Qc_is_canon. vm_compute. reflexivity. Qed.


Lemma b64_pulse_value_start : pulse_value 0 = 1%float.
Proof. vm_compute. reflexivity. Qed.

Lemma b64_pulse_value_peak : pulse_value 150 = (0x1.199999999999ap+0)%float.
Proof. vm_compute. reflexivity. Qed.





Lemma all_of_In {A : Type} (P : A -> Prop) (l : list A) (x : A) :
  all_of P l -> In x l -> P x.
Proof.
  induction l as [|y r IH]; cbn; [tauto|]. intros [H1 H2] [->|H]; auto.
Qed.

Lemma in_hundred (z : Z) : (0 <= z <= 100)%Z -> In z hundred.
Proof.
  intros H. unfold hundred. apply in_map_iff. exists (Z.to_nat z).
  split; [lia|]. apply in_seq. lia.
Qed.

(** Binary64, checked on every pair of integers in 0..100: an
    animation between two of them starts exactly at the first and
    ends exactly at the second, and [int] gives the integer back. *)
Lemma b64_integer_grid :
  all_of (fun s => all_of (fun e =>
     percent_value (of_int s : float) (of_int e) 1000 = of_int e
     /\ percent_value (of_int s : float) (of_int e) 0 = of_int s
     /\ py_int (of_int e : float) = Ok e) hundred) hundred.
Proof. vm_compute. repeat split. Qed.

Lemma b64_integers (s e : Z) :
  (0 <= s <= 100)%Z -> (0 <= e <= 100)%Z ->
  percent_value (of_int s : float) (of_int e) 1000 = of_int e
  /\ percent_value (of_int s : float) (of_int e) 0 = of_int s
  /\ py_int (of_int e : float) = Ok e.
Proof.
  intros Hs He.
  pose proof (all_of_In _ _ _ b64_integer_grid (in_hundred Hs)) as H.
  exact (all_of_In _ _ _ H (in_hundred He)).
Qed.

(* ================================================================== *)
(** ** The widget's behaviour *)


(** After a successful poll the percent animation runs from clock 0
    with both key values set. *)
Lemma poll_starts_animation {F : Type} {PF : PyFloat F}
  (battery : option (sbattery F)) (n : Z) (p : Process F) :
  Inv p -> target battery = Ok n ->
  let p' := snd (update_battery_info (Ok battery) p) in
  Inv p' /\ exec_running p' = exec_running p /\
  animation (self p')
  = {| propertyName := animated_percent; duration := 1000;
       easingCurve := OutCubic;
       startValue := Some (_animated_percent (self p));
       endValue := Some (of_int n);
       state := Running; currentTime := 0 |}.
Proof.
  intros HI Ht. cbv zeta.
  destruct (update_battery_info_Inv (Ok battery) p (proj1 HI)) as [H1 H2].
  split; [split; [exact H1|now rewrite H2; apply HI]|].
  rewrite (update_battery_info_ok _ _ Ht). cbn [snd self exec_running with_self].
  split; [reflexivity|].
  destruct (polled_fields (read_plugged battery) n (self p) (configured_pulse (proj1 HI)))
    as (_ & _ & _ & _ & _ & _ & _ & _ & Ha).
  destruct (configured_fields (proj1 HI)) as (Hn & Hd & Hc & _).
  now rewrite Ha, Hn, Hd, Hc.
Qed.

Lemma dispatch_poll {F : Type} {PF : PyFloat F} (r : SensorRead F) (p : Process F) :
  Inv p -> exec_running p = true ->
  dispatch (TimerTimeout r) p = snd (update_battery_info r p).
Proof.
  intros HI Hr. unfold dispatch. now rewrite Hr, (Inv_timer_active HI).
Qed.


(** A successful poll followed by 1000 ms of quiet events leaves the
    target on display, when the interpolation from the displayed
    percent to the target is exact at its end. *)
Lemma poll_settles {F : Type} {PF : PyFloat F} (battery : option (sbattery F)) (n : Z)
  (later : list (Event F)) (p : Process F) :
  Inv p -> exec_running p = true -> target battery = Ok n ->
  percent_value (_animated_percent (self p)) (of_int n) 1000 = of_int n ->
  forallb quiet later = true -> 1000 <= elapsed later ->
  let q := run (TimerTimeout (Ok battery) :: later) p in
  state (animation (self q)) = Stopped /\ _animated_percent (self q) = of_int n.
Proof.
  intros HI Hr Ht Hend Hq Hel q. subst q. rewrite run_cons, (dispatch_poll _ HI Hr).
  destruct (poll_starts_animation battery HI Ht) as (HI' & Hr' & Ha).
  apply (@percent_settles F _ later _ (_animated_percent (self p)) (of_int n));
    try rewrite Ha; cbn [state startValue endValue currentTime]; auto; try lia.
  now rewrite Hr'.
Qed.

Lemma Qc_poll_settles (battery : option (sbattery Qc)) (n : Z)
  (later : list (Event Qc)) (p : Process Qc) :
  Inv p -> exec_running p = true -> target battery = Ok n ->
  forallb quiet later = true -> 1000 <= elapsed later ->
  let q := run (TimerTimeout (Ok battery) :: later) p in
  state (animation (self q)) = Stopped /\ _animated_percent (self q) = of_int n.
Proof.
  intros HI Hr Ht Hq Hel.
  now apply poll_settles; auto using Qc_percent_value_end.
Qed.

(** C1: on a successful poll the pulse group is started exactly when
    the plugged value just read is true and the previous one was not;
    a reading with the previous flag already true does not start it,
    and a group that is running is left as it is.  The group is the
    sequence grow 1.0 to 1.1 in 150 ms (out-cubic), then shrink 1.1 to
    1.0 in 250 ms (in-cubic); once stopped it stays stopped until it
    is started again.  After the poll both plugged flags hold the
    value read, so the previous flag of the next poll is the one of
    the last successful poll. *)
Theorem pulse_started_on_plug_in {F : Type} {PF : PyFloat F}
  (screen_width : Z) (first : SensorRead F) (events : list (Event F))
  (battery : option (sbattery F)) (n : Z) :
  target battery = Ok n ->
  let p := run events (main screen_width first) in
  let v := read_plugged battery in
  let g := pulse_animation_group (self p) in
  let w' := self (snd (update_battery_info (Ok battery) p)) in
  let g' := pulse_animation_group w' in
  animations g
  = [ {| propertyName := pulse_scale; duration := 150; easingCurve := OutCubic;
         startValue := Some (of_int 1); endValue := Some (literal 11 10);
         state := Stopped; currentTime := 0 |};
      {| propertyName := pulse_scale; duration := 250; easingCurve := InCubic;
         startValue := Some (literal 11 10); endValue := Some (of_int 1);
         state := Stopped; currentTime := 0 |} ]
  /\ totalDuration g = 400
  /\ g' = (if truth v && negb (truth (prev_plugged (self p)))
              && match groupState g with Stopped => true | Running => false end
           then group_at_time Running 0 g else g)
  /\ (groupState g = Stopped ->
      (groupState g' = Running
       <-> truth v = true /\ truth (prev_plugged (self p)) = false))
  /\ (truth (prev_plugged (self p)) = true ->
      g' = g /\ _pulse_scale w' = _pulse_scale (self p))
  /\ (groupState g = Running ->
      g' = g /\ _pulse_scale w' = _pulse_scale (self p))
  /\ (forall dt, groupState g = Running ->
      _pulse_scale (advance dt (self p)) = pulse_value (Z.min (groupTime g + dt) 400))
  /\ (forall dt, groupState g = Stopped ->
      pulse_animation_group (advance dt (self p)) = g)
  /\ (plugged w' = v /\ prev_plugged w' = v).
Proof.
  intros Ht p v g w' g'.
  assert (HI : Inv p) by apply run_Inv, main_Inv.
  pose proof (proj1 HI) as Hc.
  destruct (polled_pulse v n Hc) as [G S]. fold g in G, S.
  assert (Ew : w' = polled v n (self p)).
  { subst w'. now rewrite (update_battery_info_ok _ _ Ht). }
  assert (Eg : g' = if truth v && negb (truth (prev_plugged (self p)))
                        && match groupState g with Stopped => true | Running => false end
                     then group_at_time Running 0 g else g).
  { subst g'. rewrite Ew. exact G. }
  assert (Es : _pulse_scale w'
               = if truth v && negb (truth (prev_plugged (self p)))
                    && match groupState g with Stopped => true | Running => false end
                 then pulse_value 0 else _pulse_scale (self p)).
  { rewrite Ew. exact S. }
  split; [exact (configured_pulse Hc)|].
  split; [exact (totalDuration_the_pulse _ (configured_pulse Hc))|].
  split; [exact Eg|].
  split; [|split; [|split; [|split; [|split]]]].
  - intros Hs. rewrite Eg, Hs, andb_true_r.
    destruct (truth v), (truth (prev_plugged (self p))); cbn; rewrite ?Hs;
      split; try tauto; try discriminate; intros [? ?]; discriminate.
  - intros Hp. rewrite Eg, Es, Hp. cbn. rewrite andb_false_r. now split.
  - intros Hr. rewrite Eg, Es, Hr, andb_false_r. now split.
  - intros dt Hr. now destruct (advance_pulse_running dt Hc Hr).
  - intros dt Hs. now destruct (advance_pulse_stopped dt Hc Hs).
  - rewrite Ew.
    now destruct (polled_fields v n (self p) (configured_pulse Hc)) as (? & ? & _).
Qed.

(** The program started off mains gets a first reading on mains. *)
Lemma pulse_started_on_plug_in_witness :
  groupState
    (pulse_animation_group
       (self (snd (update_battery_info (reading (of_int 81) true)
                     (started_b64 false)))))
  = Running.
Proof.
  pose proof (@pulse_started_on_plug_in float _ 1920 (reading (of_int 80) false) []
                (Some {| percent := of_int 81; power_plugged := PyBool true |}) 81
                eq_refl) as H.
  cbv zeta in H. destruct H as (_ & _ & _ & H & _).
  apply H; [reflexivity|split; reflexivity].
Defined.



(** C3: the gradients of a frame, the progress arc's and the glyph
    fill's, both have the color pair chosen from the state: green if
    plugged, else red below 20, else amber below 50, else cyan.  At 15
    the pair is red, at 35 amber, at 75 cyan (in either arithmetic),
    and with the plugged flag true it is green at any percent. *)
Theorem frame_colors_by_state :
  (forall (F : Type) (PF : PyFloat F) (w : BatteryWidget F),
      let pair :=
        if truth (plugged w) then green
        else if (_animated_percent w <? of_int 20)%py then red
        else if (_animated_percent w <? of_int 50)%py then amber
        else cyan in
      gradients (frame w) = [pair_stops pair; pair_stops pair])
  /\ (forall (F : Type) (PF : PyFloat F) (x : F),
         gradients (frame (showing x (PyBool true)))
         = [pair_stops green; pair_stops green])
  /\ (gradients (frame (showing (of_int 15 : Qc) (PyBool false)))
      = [pair_stops red; pair_stops red]
      /\ gradients (frame (showing (of_int 35 : Qc) (PyBool false)))
         = [pair_stops amber; pair_stops amber]
      /\ gradients (frame (showing (of_int 75 : Qc) (PyBool false)))
         = [pair_stops cyan; pair_stops cyan])
  /\ (gradients (frame (showing (of_int 15 : float) (PyBool false)))
      = [pair_stops red; pair_stops red]
      /\ gradients (frame (showing (of_int 35 : float) (PyBool false)))
         = [pair_stops amber; pair_stops amber]
      /\ gradients (frame (showing (of_int 75 : float) (PyBool false)))
         = [pair_stops cyan; pair_stops cyan]).
Proof.
  split; [|split; [|split]].
  - intros F PF w. apply frame_gradients.
  - intros F PF x. now rewrite frame_gradients.
  - repeat split; vm_compute; reflexivity.
  - repeat split; vm_compute; reflexivity.
Qed.

(** C4: when the sensor read raises, the poll prints one line and
    returns normally; the widget (displayed percent, both plugged
    flags, both animations, the timer) is what it was, the event loop
    keeps running, and the next timeout is served as if this one had
    not happened. *)
Theorem failed_read_changes_nothing {F : Type} {PF : PyFloat F}
  (msg : string) (p : Process F) :
  update_battery_info (Raise msg) p
  = (Ok tt, {| self := self p;
               stdout := stdout p ++ ["Error fetching battery info: " ++ msg];
               screen := screen p;
               exec_running := exec_running p |})
  /\ self (dispatch (TimerTimeout (Raise msg)) p) = self p
  /\ exec_running (dispatch (TimerTimeout (Raise msg)) p) = exec_running p
  /\ (forall r : SensorRead F,
         self (dispatch (TimerTimeout r) (dispatch (TimerTimeout (Raise msg)) p))
         = self (dispatch (TimerTimeout r) p)).
Proof.
  split; [reflexivity|].
  assert (E : dispatch (TimerTimeout (Raise msg)) p = p
              \/ dispatch (TimerTimeout (Raise msg)) p
                 = printed ("Error fetching battery info: " ++ msg) p).
  { unfold dispatch. destruct (exec_running p); [|now left].
    destruct (timer_active (self p)); [now right|now left]. }
  destruct E as [-> | ->]; [now repeat split|].
  split; [reflexivity|]. split; [reflexivity|].
  intros r. unfold dispatch. cbn [exec_running self printed].
  destruct (exec_running p); [|reflexivity].
  destruct (timer_active (self p)); [|reflexivity].
  apply update_battery_info_after_print.
Qed.

(** C5: when the sensor reports no battery, the poll returns normally
    without printing, the plugged flag is [False] and the percent
    animation is running towards 0; in exact arithmetic 0 is what is
    displayed after 1000 ms of quiet events. *)
Theorem no_battery_reads_as_zero :
  (forall (F : Type) (PF : PyFloat F) (screen_width : Z) (first : SensorRead F)
          (events : list (Event F)),
      let p := run events (main screen_width first) in
      let p' := snd (update_battery_info (Ok None) p) in
      fst (update_battery_info (Ok None) p) = Ok tt
      /\ stdout p' = stdout p
      /\ plugged (self p') = PyBool false
      /\ prev_plugged (self p') = PyBool false
      /\ endValue (animation (self p')) = Some (of_int 0)
      /\ state (animation (self p')) = Running)
  /\ (forall (screen_width : Z) (first : SensorRead Qc)
             (events later : list (Event Qc)),
         let p := run events (main screen_width first) in
         exec_running p = true ->
         forallb quiet later = true -> 1000 <= elapsed later ->
         let q := run (TimerTimeout (Ok None) :: later) p in
         _animated_percent (self q) = of_int 0 /\ plugged (self q) = PyBool false).
Proof.
  split.
  - intros F PF sw first events p p'.
    assert (HI : Inv p) by apply run_Inv, main_Inv.
    assert (Ht : target (@None (sbattery F)) = Ok 0) by reflexivity.
    destruct (poll_starts_animation _ HI Ht) as (_ & _ & Ha). fold p' in Ha.
    subst p'. rewrite (update_battery_info_ok _ _ Ht) in *.
    cbn [fst snd self stdout with_self] in *.
    destruct (polled_fields (PyBool false) 0 (self p) (configured_pulse (proj1 HI)))
      as (H1 & H2 & _). cbn [read_plugged] in *.
    rewrite Ha. now repeat split.
  - intros sw first events later p Hr Hq Hel q.
    assert (HI : Inv p) by apply run_Inv, main_Inv.
    assert (Ht : target (@None (sbattery Qc)) = Ok 0) by reflexivity.
    split; [exact (proj2 (@Qc_poll_settles None 0 later p HI Hr Ht Hq Hel))|].
    subst q. rewrite run_cons, (dispatch_poll _ HI Hr), (update_battery_info_ok _ _ Ht).
    cbn [snd read_plugged].
    set (p1 := with_self _ p).
    assert (H1 : plugged (self p1) = PyBool false).
    { subst p1. cbn [self with_self].
      now destruct (polled_fields (PyBool false) 0 (self p)
                      (configured_pulse (proj1 HI))) as (? & _). }
    assert (HI1 : Inv p1).
    { destruct (@poll_starts_animation Qc _ None 0 p HI Ht) as (A & _).
      now rewrite (update_battery_info_ok _ _ Ht) in A. }
    assert (Hr1 : exec_running p1 = true) by exact Hr.
    clearbody p1. clear - H1 HI1 Hr1 Hq.
    revert p1 H1 HI1 Hr1. induction later as [|ev es IH]; intros p1 H1 HI1 Hr1; [exact H1|].
    cbn [forallb] in Hq. apply andb_prop in Hq as [Hq1 Hq2]. rewrite run_cons.
    destruct (dispatch_quiet ev p1 Hq1 Hr1) as [Hr' _].
    apply IH; auto using dispatch_Inv.
    rewrite <- H1. clear - Hq1 HI1 Hr1.
    unfold dispatch. rewrite Hr1. destruct ev as [r|dt| |b]; [discriminate| | |].
    + unfold modify. cbn [snd self].
      destruct (configured_fields (proj1 HI1)) as (Hn & _).
      destruct (advance_animation_frame (Z.of_N dt) (self p1) Hn) as (G & _ & P & _).
      destruct (advance_pulse_frame (Z.of_N dt) (advance_animation (Z.of_N dt) (self p1)))
        as (_ & _ & P' & _).
      { rewrite G. apply configured_pulse, HI1. }
      unfold advance. now rewrite P'.
    + now destruct (visible (base (self p1))).
    + cbn in Hq1. unfold mousePressEvent.
      destruct (button_eqb b RightButton); [discriminate|].
      now destruct (visible (base (self p1))).
Qed.

Lemma no_battery_reads_as_zero_witness :
  _animated_percent
    (self (run [TimerTimeout (Ok None); AnimationTick 1000] (started_exact true)))
  = of_int 0.
Proof.
  pose proof (proj2 no_battery_reads_as_zero 1920 (reading (of_int 80) true) []
                [AnimationTick 1000]) as H.
  cbv zeta in H. apply H; [reflexivity|reflexivity|vm_compute; discriminate].
Defined.



(** C7: every frame has exactly two arcs, on the same rectangle and
    both starting at the top (90 degrees, in sixteenths): first the
    full ring of 360 degrees, then the progress arc whose span is
    [-percent / 100 * (360 * 16)] for the displayed percent.  In exact
    arithmetic that is [-(percent / 100) * 360 * 16]; at 0, 50 and 100
    percent the binary64 spans are -0, -2880 and -5760. *)
Theorem ring_and_progress_arc :
  (forall (F : Type) (PF : PyFloat F) (w : BatteryWidget F),
      exists r,
        arcs (frame w)
        = [(r, Int (90 * 16), Int (360 * 16));
           (r, Int (90 * 16),
            Float (- _animated_percent w / of_int 100 * of_int (360 * 16))%py)])
  /\ (forall x : Qc,
         (- x / of_int 100 * of_int (360 * 16))%py
         = (- (x / of_int 100) * of_int 360 * of_int 16)%py)
  /\ (map snd (arcs (frame (showing (of_int 0 : float) PyNone)))
      = [Int 5760; Float (-0)%float]
      /\ map snd (arcs (frame (showing (of_int 50 : float) PyNone)))
         = [Int 5760; Float (-2880)%float]
      /\ map snd (arcs (frame (showing (of_int 100 : float) PyNone)))
         = [Int 5760; Float (-5760)%float]).
Proof.
  split; [|split].
  - intros F PF w. apply frame_arcs.
  - intros x. cbn [fneg fdiv fmul of_int Exact].
    replace (Qc_of_int (360 * 16)) with (Qc_of_int 360 * Qc_of_int 16)%Qc
      by (apply Qc_is_canon; reflexivity).
    unfold Qcdiv. ring.
  - repeat split; vm_compute; reflexivity.
Qed.





(** C9: a frame is a function of the displayed percent, the pulse
    scale, the plugged flag and the window: the animation objects,
    which hold the target of the last reading, do not enter it.  The
    color thresholds, the fill height of the glyph and the text are
    computed from the displayed percent.  100 ms after a first reading
    of 80 (not plugged) the frame shows 21%, in amber, while a frame
    for 80 itself shows 80% in cyan. *)
Theorem frame_follows_displayed_percent :
  (forall (F : Type) (PF : PyFloat F) (w : BatteryWidget F)
          (a : QPropertyAnimation F) (g : QSequentialAnimationGroup F),
      paintEvent (with_animation a (with_pulse_animation_group g w)) = paintEvent w)
  /\ (forall (F : Type) (PF : PyFloat F) (w : BatteryWidget F),
         gradients (frame w)
         = [pair_stops (color_pair_of w); pair_stops (color_pair_of w)]
         /\ map (@rh F) (rounded_rects (frame w))
            = [of_int 45; of_int 4;
               ((of_int 45 - of_int 4) * (_animated_percent w / of_int 100))%py]
         /\ texts (frame w)
            = match py_int (_animated_percent w) with
              | Ok n => [py_str n ++ "%"]
              | Raise _ => []
              end)
  /\ (let p := run [AnimationTick 100; PaintEvent] (started_b64 false) in
      endValue (animation (self p)) = Some (of_int 80)
      /\ texts (screen p) = ["21%"]
      /\ gradients (screen p) = [pair_stops amber; pair_stops amber]
      /\ texts (frame (showing (of_int 80 : float) (PyBool false))) = ["80%"]
      /\ gradients (frame (showing (of_int 80 : float) (PyBool false)))
         = [pair_stops cyan; pair_stops cyan])
  /\ (let p := run [AnimationTick 100; PaintEvent] (started_exact false) in
      endValue (animation (self p)) = Some (of_int 80)
      /\ texts (screen p) = ["21%"]
      /\ gradients (screen p) = [pair_stops amber; pair_stops amber]).
Proof.
  split; [|split; [|split]].
  - reflexivity.
  - intros F PF w.
    split; [apply frame_gradients|split; [apply frame_fill_height|apply frame_texts]].
  - repeat split; vm_compute; reflexivity.
  - repeat split; vm_compute; reflexivity.
Qed.

(** C10: the end value of the percent animation is [int] of the
    reading, and the text of a frame is [int] of the displayed percent,
    followed by the percent sign.  In exact arithmetic [int] is the
    quotient truncated toward zero, and after 1000 ms of quiet events
    the displayed percent is the truncated reading; a reading of 99.9
    gives 99, on display and as text, in either arithmetic. *)
Theorem readings_truncated_to_int :
  (forall (F : Type) (PF : PyFloat F) (screen_width : Z) (first : SensorRead F)
          (events : list (Event F)) (b : sbattery F) (n : Z),
      py_int (percent b) = Ok n ->
      let p := run events (main screen_width first) in
      endValue (animation (self (snd (update_battery_info (Ok (Some b)) p))))
      = Some (of_int n))
  /\ (forall (F : Type) (PF : PyFloat F) (w : BatteryWidget F),
         texts (frame w)
         = match py_int (_animated_percent w) with
           | Ok n => [py_str n ++ "%"]
           | Raise _ => []
           end)
  /\ (forall (screen_width : Z) (first : SensorRead Qc)
             (events later : list (Event Qc)) (x : Qc) (plug : bool),
         let p := run events (main screen_width first) in
         let n := Z.quot (Qnum (this x)) (Zpos (Qden (this x))) in
         py_int x = Ok n
         /\ (exec_running p = true ->
             forallb quiet later = true -> 1000 <= elapsed later ->
             _animated_percent (self (run (TimerTimeout (reading x plug) :: later) p))
             = of_int n))
  /\ (py_int (literal 999 10 : Qc) = Ok 99
      /\ (of_int 99 : Qc) <> literal 999 10)
  /\ (let q := run [TimerTimeout (reading (literal 999 10) false);
                    AnimationTick 1000; PaintEvent] (started_b64 false) in
      py_int (literal 999 10 : float) = Ok 99
      /\ endValue (animation (self q)) = Some (of_int 99)
      /\ _animated_percent (self q) = of_int 99
      /\ texts (screen q) = ["99%"]).
Proof.
  split; [|split; [|split; [|split]]].
  - intros F PF sw first events b n Hn p.
    assert (HI : Inv p) by apply run_Inv, main_Inv.
    destruct (@poll_starts_animation F PF (Some b) n p HI Hn) as (_ & _ & Ha).
    now rewrite Ha.
  - intros F PF w. apply frame_texts.
  - intros sw first events later x plug p n. split; [reflexivity|].
    intros Hr Hq Hel.
    assert (HI : Inv p) by apply run_Inv, main_Inv.
    assert (Ht : target (Some {| percent := x; power_plugged := PyBool plug |}) = Ok n)
      by reflexivity.
    exact (proj2 (@Qc_poll_settles _ n later p HI Hr Ht Hq Hel)).
  - split; [reflexivity|]. intros H. apply (f_equal (@this)) in H.
    vm_compute in H. discriminate.
  - repeat split; vm_compute; reflexivity.
Qed.

Lemma readings_truncated_to_int_witness :
  endValue
    (animation
       (self (snd (update_battery_info (reading (literal 999 10) true)
                     (started_b64 false)))))
  = Some 99%float
  /\ _animated_percent
       (self (run [TimerTimeout (reading (literal 999 10) false); AnimationTick 1000]
                (started_exact false)))
     = of_int 99.
Proof.
  split.
  - exact (proj1 readings_truncated_to_int float _ 1920 (reading (of_int 80) false) []
             {| percent := literal 999 10; power_plugged := PyBool true |} 99 eq_refl).
  - pose proof (proj1 (proj2 (proj2 readings_truncated_to_int)) 1920
                  (reading (of_int 80) false) [] [AnimationTick 1000]
                  (literal 999 10) false) as H.
    cbv zeta in H. destruct H as [_ H].
    change (run [] (main 1920 (reading (of_int 80 : Qc) false)))
      with (started_exact false) in H.
    change (of_int 99 : Qc)
      with (of_int (Z.quot (Qnum (this (literal 999 10 : Qc)))
                      (Zpos (Qden (this (literal 999 10 : Qc))))) : Qc).
    apply H; [reflexivity|reflexivity|vm_compute; discriminate].
Defined.

(* ================================================================== *)
(** ** Further properties of the widget *)

(** *** Exact arithmetic, through the rationals *)














(** *** The clock and the poll, with or without key values *)

Section MoreFacts.
Context {F : Type} {PF : PyFloat F}.




End MoreFacts.

(** *** Bounds kept at every step (exact arithmetic) *)


Section MoreSteps.
Context {F : Type} {PF : PyFloat F}.

(** *** A poll by its outcome *)

Lemma failure_Some (r : SensorRead F) (msg : string) (p : Process F) :
  failure r = Some msg ->
  update_battery_info r p
  = (Ok tt, printed ("Error fetching battery info: " ++ msg) p).
Proof.
  destruct r as [[b|]|m]; cbn [failure].
  - destruct (py_int (percent b)) eqn:E; [discriminate|].
    intros H. injection H as <-. now apply update_battery_info_int_raises.
  - discriminate.
  - intros H. injection H as <-. reflexivity.
Qed.

Lemma failure_None (r : SensorRead F) :
  failure r = None -> exists b n, r = Ok b /\ target b = Ok n.
Proof.
  destruct r as [[b|]|m]; cbn [failure].
  - destruct (py_int (percent b)) as [n|] eqn:E; [|discriminate].
    intros _. exists (Some b), n. now split.
  - intros _. exists None, 0. now split.
  - discriminate.
Qed.

(** *** What no step changes *)

Lemma window_polled (v : PyValue) (n : Z) (w : BatteryWidget F) :
  window (polled v n w) = window w.
Proof.
  unfold polled. unfold_qt. cbn.
  repeat (break_match; cbn); reflexivity.
Qed.

Lemma window_advance (dt : Z) (w : BatteryWidget F) :
  window (advance dt w) = window w.
Proof.
  unfold_qt. cbn -[Z.min Z.ltb Z.add].
  repeat (break_match; cbn -[Z.min Z.ltb Z.add]); reflexivity.
Qed.

Lemma window_dispatch (ev : Event F) (p : Process F) :
  window (self (dispatch ev p)) = window (self p).
Proof.
  unfold dispatch. destruct (exec_running p); [|reflexivity].
  destruct ev as [r|dt| |b].
  - destruct (timer_active (self p)); [|reflexivity].
    destruct (update_battery_info_cases r p) as [[msg ->]|(b & n & -> & Ht & ->)];
      [reflexivity|apply window_polled].
  - apply window_advance.
  - now destruct (visible (base (self p))).
  - destruct (visible (base (self p))); [|reflexivity].
    now destruct (mousePressEvent_self b p) as [-> | ->].
Qed.

Lemma window_main (screen_width : Z) (r : SensorRead F) :
  window (self (main screen_width r))
  = (120, 120, {| px := screen_width - 140; py := 30 |},
     (Z.lor Qt_FramelessWindowHint Qt_Tool, true, false)).
Proof.
  unfold main, __init__, show, bind, modify.
  cbn [self stdout screen exec_running snd].
  set (p0 := {| self := initAnimation (initUI screen_width fresh);
                stdout := []; screen := []; exec_running := false |}).
  assert (W0 : window (self p0)
               = (120, 120, {| px := screen_width - 140; py := 30 |},
                  (Z.lor Qt_FramelessWindowHint Qt_Tool, true, false))).
  { unfold window. cbn. now replace (screen_width - 120 - 20) with (screen_width - 140) by lia. }
  destruct (update_battery_info_cases r p0) as [[msg E]|(b & n & -> & Ht & E)];
    rewrite E; cbn [snd self stdout screen exec_running printed with_self].
  - exact W0.
  - rewrite <- W0, <- (window_polled (read_plugged b) n (self p0)). reflexivity.
Qed.

(** The event loop is never left. *)
Lemma dispatch_running (ev : Event F) (p : Process F) :
  Inv p -> exec_running p = true -> exec_running (dispatch ev p) = true.
Proof.
  intros HI Hr. unfold dispatch. rewrite Hr.
  destruct ev as [r|dt| |b].
  - destruct (timer_active (self p)); [|exact Hr].
    now rewrite (proj2 (update_battery_info_returns r p)).
  - exact Hr.
  - now destruct (visible (base (self p))).
  - destruct (visible (base (self p))) eqn:Hv; [|exact Hr].
    unfold mousePressEvent, close, bind, ret.
    destruct (button_eqb b RightButton); [|exact Hr].
    rewrite Hv. cbn [snd exec_running].
    destruct (configured_fields (proj1 HI)) as (_ & _ & _ & _ & Hq & _).
    now rewrite Hq, Hr.
Qed.

Lemma run_running (events : list (Event F)) (p : Process F) :
  Inv p -> exec_running p = true -> exec_running (run events p) = true.
Proof.
  revert p. induction events as [|ev es IH]; intros p HI Hr; [exact Hr|].
  rewrite run_cons. apply IH; auto using dispatch_Inv, dispatch_running.
Qed.

Lemma main_running (screen_width : Z) (r : SensorRead F) :
  exec_running (main screen_width r) = true.
Proof. reflexivity. Qed.

(** What a step prints. *)
Lemma dispatch_stdout (ev : Event F) (p : Process F) :
  Inv p -> exec_running p = true ->
  stdout (dispatch ev p) = (stdout p ++ error_lines [ev])%list.
Proof.
  intros HI Hr. unfold dispatch. rewrite Hr. cbn [error_lines flat_map].
  destruct ev as [r|dt| |b]; rewrite ?app_nil_r.
  - rewrite (Inv_timer_active HI). destruct (failure r) as [msg|] eqn:E.
    + now rewrite (failure_Some _ p E).
    + destruct (failure_None _ E) as (b & n & -> & Ht).
      rewrite (update_battery_info_ok _ _ Ht). cbn. now rewrite app_nil_r.
  - reflexivity.
  - now destruct (visible (base (self p))).
  - destruct (visible (base (self p))) eqn:Hv; [|reflexivity].
    unfold mousePressEvent, close, bind, ret.
    destruct (button_eqb b RightButton); [|reflexivity].
    now rewrite Hv.
Qed.

Lemma error_lines_cons (ev : Event F) (es : list (Event F)) :
  error_lines (ev :: es) = (error_lines [ev] ++ error_lines es)%list.
Proof. cbn [error_lines flat_map]. now rewrite app_nil_r. Qed.

Lemma run_stdout (events : list (Event F)) (p : Process F) :
  Inv p -> exec_running p = true ->
  stdout (run events p) = (stdout p ++ error_lines events)%list.
Proof.
  revert p. induction events as [|ev es IH]; intros p HI Hr.
  - cbn. now rewrite app_nil_r.
  - rewrite run_cons, IH by auto using dispatch_Inv, dispatch_running.
    rewrite dispatch_stdout by auto.
    now rewrite (error_lines_cons ev es), app_assoc.
Qed.

Lemma main_stdout (screen_width : Z) (r : SensorRead F) :
  stdout (main screen_width r) = error_lines [TimerTimeout r].
Proof.
  unfold main, __init__, show, bind, modify.
  cbn [self stdout screen exec_running snd error_lines flat_map].
  set (p0 := {| self := initAnimation (initUI screen_width fresh);
                stdout := []; screen := []; exec_running := false |}).
  destruct (failure r) as [msg|] eqn:E.
  - now rewrite (failure_Some _ p0 E).
  - destruct (failure_None _ E) as (b & n & -> & Ht).
    now rewrite (update_battery_info_ok _ _ Ht).
Qed.

(** The two plugged flags after a step. *)
Lemma dispatch_flags (ev : Event F) (p : Process F) :
  Inv p ->
  (plugged (self (dispatch ev p)) = plugged (self p) /\
   prev_plugged (self (dispatch ev p)) = prev_plugged (self p))
  \/ (exists b n, ev = TimerTimeout (Ok b) /\ target b = Ok n /\
        plugged (self (dispatch ev p)) = read_plugged b /\
        prev_plugged (self (dispatch ev p)) = read_plugged b).
Proof.
  intros HI. unfold dispatch.
  destruct (exec_running p); [|now left].
  destruct ev as [r|dt| |b].
  - rewrite (Inv_timer_active HI).
    destruct (update_battery_info_cases r p) as [[msg ->]|(b & n & -> & Ht & ->)].
    + now left.
    + right. exists b, n. cbn [snd self with_self].
      destruct (polled_fields (read_plugged b) n (self p) (configured_pulse (proj1 HI)))
        as (H1 & H2 & _). now repeat split.
  - left. unfold modify. cbn [snd self].
    destruct (configured_fields (proj1 HI)) as (Hn & _).
    destruct (advance_animation_frame (Z.of_N dt) (self p) Hn) as (G & _ & P1 & P2 & _).
    destruct (advance_pulse_frame (Z.of_N dt) (advance_animation (Z.of_N dt) (self p)))
      as (_ & _ & Q1 & Q2 & _).
    { rewrite G. apply configured_pulse, HI. }
    unfold advance. now rewrite Q1, Q2.
  - left. now destruct (visible (base (self p))).
  - left. destruct (visible (base (self p))); [|now split].
    now destruct (mousePressEvent_self b p) as [-> | ->].
Qed.

End MoreSteps.








(** X1: whatever the events, the window keeps the setup of [initUI]:
    120 by 120, against the right edge of the screen with a margin of
    20 and 30 from the top, frameless tool window, translucent; and
    the poll timer stays at 1000 ms, active. *)
Theorem window_setup_kept {F : Type} {PF : PyFloat F}
  (screen_width : Z) (first : SensorRead F) (events : list (Event F)) :
  let w := self (run events (main screen_width first)) in
  width (base w) = 120 /\ height (base w) = 120
  /\ px (pos (base w)) + width (base w) + 20 = screen_width
  /\ py (pos (base w)) = 30
  /\ windowType (windowFlags (base w)) = Qt_Tool
  /\ Z.land (windowFlags (base w)) Qt_FramelessWindowHint = Qt_FramelessWindowHint
  /\ WA_TranslucentBackground (base w) = true
  /\ timer w = Some {| interval := 1000; active := true |}.
Proof.
  intros w.
  assert (HI : Inv (run events (main screen_width first))) by apply run_Inv, main_Inv.
  assert (W : window w
              = (120, 120, {| px := screen_width - 140; py := 30 |},
                 (Z.lor Qt_FramelessWindowHint Qt_Tool, true, false))).
  { subst w. clear HI. rewrite <- (window_main screen_width first).
    generalize (main screen_width first). induction events as [|ev es IH]; intros p.
    - reflexivity.
    - rewrite run_cons, IH. apply window_dispatch. }
  unfold window in W. injection W as W1 W2 W3 W4 W5 W6.
  rewrite W1, W2, W3, W4, W5. cbn [px py].
  repeat split; try reflexivity; try lia. apply HI.
Qed.






(** *** Frames of a 120 by 120 widget *)








(** X6: between events the two plugged flags are equal: the pulse
    condition of a poll compares the value read with the flag the
    frames are drawn with. *)
Theorem prev_plugged_is_plugged {F : Type} {PF : PyFloat F}
  (screen_width : Z) (first : SensorRead F) (events : list (Event F)) :
  let w := self (run events (main screen_width first)) in
  prev_plugged w = plugged w.
Proof.
  intros w. subst w.
  assert (H0 : prev_plugged (self (main screen_width first))
               = plugged (self (main screen_width first))).
  { unfold main, __init__, show, bind, modify.
    cbn [self stdout screen exec_running snd].
    set (p0 := {| self := initAnimation (initUI screen_width fresh);
                  stdout := []; screen := []; exec_running := false |}).
    destruct (update_battery_info_cases first p0) as [[msg E]|(b & n & -> & Ht & E)];
      rewrite E; cbn [snd self stdout screen exec_running printed with_self].
    - reflexivity.
    - change (prev_plugged (polled (read_plugged b) n (self p0))
              = plugged (polled (read_plugged b) n (self p0))).
      destruct (polled_fields (read_plugged b) n (self p0) eq_refl) as (H1 & H2 & _).
      now rewrite H1, H2. }
  pose proof (main_Inv screen_width first) as HI.
  revert H0 HI. generalize (main screen_width first).
  induction events as [|ev es IH]; intros p H0 HI; [exact H0|].
  rewrite run_cons. apply IH; auto using dispatch_Inv.
  destruct (dispatch_flags ev HI) as [[-> ->]|(b & n & _ & _ & -> & ->)]; auto.
Qed.

(** X7: what the program has printed is exactly one line per failed
    poll, in order, each the fixed prefix followed by the message of
    the exception; a successful poll, a tick, a paint or a click
    prints nothing. *)
Theorem stdout_is_the_failed_polls {F : Type} {PF : PyFloat F}
  (screen_width : Z) (first : SensorRead F) (events : list (Event F)) :
  stdout (run events (main screen_width first))
  = error_lines (TimerTimeout first :: events).
Proof.
  rewrite run_stdout by auto using main_Inv, main_running.
  now rewrite main_stdout, <- error_lines_cons.
Qed.

(** X8: no event makes [app.exec()] return: the source never asks
    the application to quit, and closing a tool window does not. *)
Theorem event_loop_never_left {F : Type} {PF : PyFloat F}
  (screen_width : Z) (first : SensorRead F) (events : list (Event F)) :
  exec_running (run events (main screen_width first)) = true.
Proof. apply run_running; auto using main_Inv, main_running. Qed.

Section Idle.
Context {F : Type} {PF : PyFloat F}.

Lemma target_not_failure (b : option (sbattery F)) (n : Z) :
  target b = Ok n -> failure (Ok b) = None.
Proof.
  destruct b as [b|]; cbn [target failure]; [|reflexivity].
  now intros ->.
Qed.

Lemma dispatch_idle (ev : Event F) (p : Process F) :
  Inv p -> no_reading ev = true -> idle (self p) -> idle (self (dispatch ev p)).
Proof.
  intros HI Hn (Ha & Hg & Hp & Hs & Hf & Hv).
  destruct (dispatch_flags ev HI) as [[F1 F2]|(b & n & -> & Ht & _)].
  2:{ cbn [no_reading] in Hn. now rewrite (target_not_failure _ Ht) in Hn. }
  destruct (dispatch_cases ev HI)
    as [(Ea & Ep & Eg & Es)|[(dt & -> & E1)|(b & n & -> & Ht & _)]].
  - unfold idle. now rewrite Ea, Ep, Eg, Es, F1, F2.
  - destruct (advance_percent_stopped (Z.of_N dt) (proj1 HI) Ha) as [A1 A2].
    destruct (advance_pulse_stopped (Z.of_N dt) (proj1 HI) Hg) as [B1 B2].
    unfold idle. rewrite F1, F2, E1, A1, A2, B1, B2. now repeat split.
  - cbn [no_reading] in Hn. now rewrite (target_not_failure _ Ht) in Hn.
Qed.

Lemma main_idle (screen_width : Z) (r : SensorRead F) :
  no_reading (TimerTimeout r) = true -> idle (self (main screen_width r)).
Proof.
  cbn [no_reading]. destruct (failure r) as [msg|] eqn:E; [|discriminate].
  intros _. unfold main, __init__, show, bind, modify.
  cbn [self stdout screen exec_running snd].
  rewrite (failure_Some _ _ E). now repeat split.
Qed.

Lemma run_idle (events : list (Event F)) (p : Process F) :
  Inv p -> forallb no_reading events = true -> idle (self p) ->
  idle (self (run events p)).
Proof.
  revert p. induction events as [|ev es IH]; intros p HI Hn Hi; [exact Hi|].
  cbn [forallb] in Hn. apply andb_prop in Hn as [H1 H2]. rewrite run_cons.
  apply IH; auto using dispatch_Inv, dispatch_idle.
Qed.

End Idle.


(** X9: as long as no poll has succeeded (the first read and every
    later one raised, or [int] of the percent did), the widget shows
    an empty, unplugged battery: the displayed percent is 0, the
    plugged flag is [False], nothing animates; its frames read 0% in
    red, in either arithmetic. *)
Theorem shows_empty_until_first_reading :
  (forall (F : Type) (PF : PyFloat F) (screen_width : Z) (first : SensorRead F)
          (events : list (Event F)),
      forallb no_reading (TimerTimeout first :: events) = true ->
      let w := self (run events (main screen_width first)) in
      _animated_percent w = of_int 0 /\ plugged w = PyBool false
      /\ state (animation w) = Stopped
      /\ groupState (pulse_animation_group w) = Stopped
      /\ _pulse_scale w = of_int 1)
  /\ (forall (screen_width : Z) (first : SensorRead Qc) (events : list (Event Qc)),
         forallb no_reading (TimerTimeout first :: events) = true ->
         let w := self (run events (main screen_width first)) in
         texts (frame w) = ["0%"]
         /\ gradients (frame w) = [pair_stops red; pair_stops red])
  /\ (forall (screen_width : Z) (first : SensorRead float)
             (events : list (Event float)),
         forallb no_reading (TimerTimeout first :: events) = true ->
         let w := self (run events (main screen_width first)) in
         texts (frame w) = ["0%"]
         /\ gradients (frame w) = [pair_stops red; pair_stops red]).
Proof.
  assert (G : forall (F : Type) (PF : PyFloat F) sw (first : SensorRead F) events,
             forallb no_reading (TimerTimeout first :: events) = true ->
             idle (self (run events (main sw first)))).
  { intros F PF sw first events H. cbn [forallb] in H.
    apply andb_prop in H as [H1 H2].
    apply run_idle; auto using main_Inv, main_idle. }
  split; [|split].
  - intros F PF sw first events H w.
    destruct (G F PF sw first events H) as (Ha & Hg & Hp & Hs & Hf & _).
    now repeat split.
  - intros sw first events H w.
    destruct (G _ _ sw first events H) as (_ & _ & Hp & _ & Hf & _). fold w in Hp, Hf.
    rewrite frame_texts, frame_gradients. unfold color_pair_of.
    rewrite Hp, Hf. split; reflexivity.
  - intros sw first events H w.
    destruct (G _ _ sw first events H) as (_ & _ & Hp & _ & Hf & _). fold w in Hp, Hf.
    rewrite frame_texts, frame_gradients. unfold color_pair_of.
    rewrite Hp, Hf. split; reflexivity.
Qed.

Lemma shows_empty_until_first_reading_witness :
  texts
    (frame (self (run [AnimationTick 500;
                       TimerTimeout (reading PrimFloat.nan true); PaintEvent]
                    (main 1920 (Raise "no sensor")))))
  = ["0%"].
Proof.
  apply (proj2 (proj2 shows_empty_until_first_reading) 1920 (Raise "no sensor")
           [AnimationTick 500; TimerTimeout (reading PrimFloat.nan true); PaintEvent]).
  vm_compute. reflexivity.
Defined.

(** X10: if [int(battery.percent)] raises, the poll is skipped like a
    failed read: the message is printed, and nothing of the reading
    is taken, not even its plugged value; in binary64 that is the
    case of a percent that is NaN or infinite. *)
Theorem unconvertible_percent_skips_poll :
  (forall (F : Type) (PF : PyFloat F) (b : sbattery F) (msg : string) (p : Process F),
      py_int (percent b) = Raise msg ->
      update_battery_info (Ok (Some b)) p
      = (Ok tt, {| self := self p;
                   stdout := stdout p ++ ["Error fetching battery info: " ++ msg];
                   screen := screen p;
                   exec_running := exec_running p |}))
  /\ (forall (x : float) (v : PyValue) (p : Process float),
         Prim2SF x = S754_nan \/ (exists s, Prim2SF x = S754_infinity s) ->
         self (snd (update_battery_info
                      (Ok (Some {| percent := x; power_plugged := v |})) p))
         = self p
         /\ List.length
              (stdout (snd (update_battery_info
                              (Ok (Some {| percent := x; power_plugged := v |})) p)))
            = S (List.length (stdout p))).
Proof.
  split.
  - intros F PF b msg p H. now rewrite (update_battery_info_int_raises _ _ H).
  - intros x v p H.
    assert (E : exists msg, py_int x = Raise msg).
    { cbn [py_int Binary64]. unfold b64_int.
      destruct H as [-> | [s ->]]; eauto. }
    destruct E as [msg E].
    rewrite (update_battery_info_int_raises {| percent := x; power_plugged := v |} p E).
    cbn [snd self stdout printed]. split; [reflexivity|].
    rewrite length_app. cbn. lia.
Qed.

Lemma unconvertible_percent_skips_poll_witness :
  plugged
    (self (snd (update_battery_info (reading PrimFloat.nan true) (started_b64 false))))
  = PyBool false
  /\ plugged
       (self (snd (update_battery_info (reading PrimFloat.infinity true)
                     (started_b64 false))))
     = PyBool false.
Proof.
  unfold reading. split.
  - rewrite (proj1 (proj2 unconvertible_percent_skips_poll PrimFloat.nan
                      (PyBool true) (started_b64 false) (or_introl eq_refl))).
    reflexivity.
  - rewrite (proj1 (proj2 unconvertible_percent_skips_poll PrimFloat.infinity
                      (PyBool true) (started_b64 false)
                      (or_intror (ex_intro _ false eq_refl)))).
    reflexivity.
Defined.







Section Repaint.
Context {F : Type} {PF : PyFloat F}.

Lemma event_ok_any (events : list (Event F)) :
  Forall (event_ok (fun _ : F => True)) events.
Proof.
  induction events as [|ev es IH]; constructor; auto.
  destruct ev as [[b|]| | |]; cbn; auto.
Qed.

Lemma reachable_keyed (screen_width : Z) (first : SensorRead F)
  (events : list (Event F)) :
  keyed (fun _ : F => True) (self (run events (main screen_width first))).
Proof.
  apply run_keyed; auto using main_Inv, event_ok_any.
  apply main_keyed. destruct first as [b|]; cbn; auto.
Qed.

Lemma advance_animation_base (dt : Z) (w : BatteryWidget F) (s e : F) :
  propertyName (animation w) = animated_percent ->
  state (animation w) = Running ->
  startValue (animation w) = Some s -> endValue (animation w) = Some e ->
  base (advance_animation dt w) = update (base w).
Proof.
  intros Hn Hr Hs He. unfold advance_animation, updateCurrentValue, valueAt.
  rewrite Hr, Hs, He. cbn [propertyName at_time]. rewrite Hn.
  now destruct (_ <? _)%Z.
Qed.

Lemma advance_pulse_base (dt : Z) (w : BatteryWidget F) :
  animations (pulse_animation_group w) = the_pulse ->
  groupState (pulse_animation_group w) = Running ->
  base (advance_pulse dt w) = update (base w).
Proof.
  intros Hg Hr. unfold advance_pulse, updateGroupValue. rewrite Hr.
  rewrite Hg, animationAt_the_pulse, (@totalDuration_the_pulse _ _ _ Hg).
  unfold updateCurrentValue.
  destruct (_ <? 150)%Z; rewrite ?valueAt_grow, ?valueAt_shrink;
    now destruct (_ <? 400)%Z.
Qed.

Lemma advance_animation_idle (dt : Z) (w : BatteryWidget F) :
  state (animation w) = Stopped -> advance_animation dt w = w.
Proof. intros H. unfold advance_animation. now rewrite H. Qed.

Lemma advance_pulse_idle (dt : Z) (w : BatteryWidget F) :
  groupState (pulse_animation_group w) = Stopped -> advance_pulse dt w = w.
Proof. intros H. unfold advance_pulse. now rewrite H. Qed.

Lemma process_eta (q : Process F) :
  {| self := self q; stdout := stdout q; screen := screen q;
     exec_running := exec_running q |} = q.
Proof. now destruct q. Qed.

End Repaint.

(** X13: a tick of the animation clock asks for a repaint of the
    visible widget exactly when something is animating: with the
    percent animation or the pulse running, a paint is pending after
    the tick; with both stopped the tick changes nothing.  The paint
    event then puts the frame of the current values on screen and
    clears the request. *)
Theorem repaint_follows_animation {F : Type} {PF : PyFloat F}
  (screen_width : Z) (first : SensorRead F) (events : list (Event F)) (dt : N) :
  let p := run events (main screen_width first) in
  let p' := dispatch (AnimationTick dt) p in
  (state (animation (self p)) = Running
   \/ groupState (pulse_animation_group (self p)) = Running ->
   update_pending (base (self p')) = visible (base (self p)))
  /\ (state (animation (self p)) = Stopped ->
      groupState (pulse_animation_group (self p)) = Stopped ->
      p' = p)
  /\ (visible (base (self p)) = true ->
      screen (dispatch PaintEvent p) = frame (self p)
      /\ update_pending (base (self (dispatch PaintEvent p))) = false).
Proof.
  intros p p'.
  assert (HI : Inv p) by apply run_Inv, main_Inv.
  assert (Hr : exec_running p = true)
    by (apply run_running; auto using main_Inv, main_running).
  pose proof (reachable_keyed screen_width first events) as Hk. fold p in Hk.
  destruct (configured_fields (proj1 HI)) as (Hn & _ & _ & Hg & _).
  assert (E : self p' = advance (Z.of_N dt) (self p)).
  { subst p'. unfold dispatch. now rewrite Hr. }
  split; [|split].
  - intros H. rewrite E. unfold advance.
    destruct (advance_animation_frame (Z.of_N dt) (self p) Hn) as (G & _ & _ & _ & V).
    destruct (groupState (pulse_animation_group (self p))) eqn:Hgs.
    + destruct H as [H|H]; [|discriminate].
      destruct (Hk H) as (s & e & Hs & He & _).
      rewrite advance_pulse_idle by now rewrite G.
      now rewrite (advance_animation_base (Z.of_N dt) (self p) Hn H Hs He).
    + rewrite advance_pulse_base by (rewrite G; auto).
      cbn [update update_pending]. exact V.
  - intros Ha Hs. subst p'. unfold dispatch, modify, advance.
    rewrite advance_animation_idle, advance_pulse_idle by auto.
    cbn [snd]. rewrite process_eta. now rewrite Hr.
  - intros Hv. unfold dispatch. rewrite Hr, Hv. now split.
Qed.

Lemma repaint_follows_animation_witness :
  update_pending
    (base (self (dispatch (AnimationTick 16) (run [PaintEvent] (started_b64 false)))))
  = true
  /\ dispatch (AnimationTick 16) (run [AnimationTick 1000; PaintEvent] (started_b64 false))
     = run [AnimationTick 1000; PaintEvent] (started_b64 false).
Proof.
  pose proof (@repaint_follows_animation float _ 1920 (reading (of_int 80) false)
                [PaintEvent] 16) as H1.
  pose proof (@repaint_follows_animation float _ 1920 (reading (of_int 80) false)
                [AnimationTick 1000; PaintEvent] 16) as H2.
  cbv zeta in H1, H2. unfold started_b64. split.
  - rewrite (proj1 H1); [reflexivity|left; reflexivity].
  - apply (proj1 (proj2 H2)); reflexivity.
Defined.


Section Startup.
Context {F : Type} {PF : PyFloat F}.

Lemma main_after_reading (screen_width : Z) (b : option (sbattery F)) (n : Z) :
  target b = Ok n ->
  let w := self (main screen_width (Ok b)) in
  animation w
  = {| propertyName := animated_percent; duration := 1000;
       easingCurve := OutCubic;
       startValue := Some (of_int 0); endValue := Some (of_int n);
       state := Running; currentTime := 0 |}
  /\ _animated_percent w = percent_value (of_int 0) (of_int n) 0
  /\ plugged w = read_plugged b
  /\ visible (base w) = true /\ update_pending (base w) = true.
Proof.
  intros Ht. unfold main, __init__, show, bind, modify.
  cbn [self stdout screen exec_running snd].
  set (p0 := {| self := initAnimation (initUI screen_width fresh);
                stdout := []; screen := []; exec_running := false |}).
  rewrite (update_battery_info_ok _ p0 Ht).
  cbn [snd self stdout screen exec_running with_self].
  destruct (polled_fields (read_plugged b) n (self p0) eq_refl)
    as (H1 & _ & _ & _ & _ & _ & _ & _ & Ha).
  pose proof (polled_percent (read_plugged b) n (w := self p0) eq_refl) as Hp.
  set (w1 := polled _ _ _) in *. clearbody w1.
  cbn [animation _animated_percent plugged base with_base with_timer
       update setVisible visible update_pending].
  now rewrite Ha, Hp, H1.
Qed.

Lemma startup_settles (screen_width : Z) (b : option (sbattery F)) (n : Z)
  (events : list (Event F)) :
  target b = Ok n ->
  percent_value (of_int 0) (of_int n) 1000 = of_int n ->
  forallb quiet events = true -> 1000 <= elapsed events ->
  _animated_percent (self (run events (main screen_width (Ok b)))) = of_int n.
Proof.
  intros Ht Hend Hq Hel.
  destruct (main_after_reading screen_width b Ht) as (Ha & _).
  apply (@percent_settles F _ events _ (of_int 0) (of_int n));
    auto using main_Inv, main_running; rewrite Ha; cbn; auto; lia.
Qed.

(** Once hidden, always hidden, and nothing more is painted. *)
Lemma dispatch_hidden (ev : Event F) (p : Process F) :
  Inv p -> visible (base (self p)) = false ->
  visible (base (self (dispatch ev p))) = false
  /\ screen (dispatch ev p) = screen p.
Proof.
  intros HI Hv. unfold dispatch. destruct (exec_running p); [|now split].
  rewrite Hv. destruct ev as [r|dt| |b]; try now split.
  - rewrite (Inv_timer_active HI).
    destruct (update_battery_info_cases r p) as [[msg ->]|(b & n & -> & Ht & ->)];
      [now split|].
    cbn [snd self screen with_self]. split; [|reflexivity].
    destruct (polled_fields (read_plugged b) n (self p) (configured_pulse (proj1 HI)))
      as (_ & _ & _ & _ & _ & _ & _ & V & _).
    now rewrite V.
  - unfold modify. cbn [snd self screen]. split; [|reflexivity].
    destruct (configured_fields (proj1 HI)) as (Hn & _).
    destruct (advance_animation_frame (Z.of_N dt) (self p) Hn) as (G & _ & _ & _ & V1).
    destruct (advance_pulse_frame (Z.of_N dt) (advance_animation (Z.of_N dt) (self p)))
      as (_ & _ & _ & _ & V2).
    { rewrite G. apply configured_pulse, HI. }
    unfold advance. now rewrite V2, V1.
Qed.

End Startup.

(** X15: the widget starts at 0 percent whatever the first reading
    is, visible and with a paint pending, and sweeps to the reading:
    with no further poll, the displayed percent is [int] of the first
    reading once 1000 ms of animation clock have passed (exact
    arithmetic; in binary64 for integer readings in 0..100). *)
Theorem startup_sweeps_from_zero :
  (forall (screen_width : Z) (x : Qc) (plug : bool) (events : list (Event Qc)),
      let p := main screen_width (reading x plug) in
      _animated_percent (self p) = of_int 0
      /\ visible (base (self p)) = true /\ update_pending (base (self p)) = true
      /\ (forallb quiet events = true -> 1000 <= elapsed events ->
          _animated_percent (self (run events p))
          = of_int (Z.quot (Qnum (this x)) (Zpos (Qden (this x))))))
  /\ (forall (screen_width : Z) (n : Z) (plug : bool) (events : list (Event float)),
         let p := main screen_width (reading (of_int n) plug) in
         (0 <= n <= 100)%Z ->
         _animated_percent (self p) = of_int 0
         /\ (forallb quiet events = true -> 1000 <= elapsed events ->
             _animated_percent (self (run events p)) = of_int n)).
Proof.
  split.
  - intros sw x plug events p.
    set (n := Z.quot (Qnum (this x)) (Zpos (Qden (this x)))).
    assert (Ht : target (Some {| percent := x; power_plugged := PyBool plug |}) = Ok n)
      by reflexivity.
    destruct (main_after_reading sw _ Ht) as (_ & Hp & _ & Hv & Hu).
    split; [|split; [exact Hv|split; [exact Hu|]]].
    + subst p. unfold reading. rewrite Hp. apply Qc_percent_value_start.
    + intros Hq Hel. subst p. unfold reading.
      apply startup_settles; auto using Qc_percent_value_end.
  - intros sw n plug events p Hn.
    assert (H0 : (0 <= 0 <= 100)%Z) by lia.
    destruct (b64_integers H0 Hn) as (Hend & Hstart & Hint).
    assert (Ht : target (Some {| percent := (of_int n : float);
                                 power_plugged := PyBool plug |}) = Ok n)
      by exact Hint.
    destruct (main_after_reading sw _ Ht) as (_ & Hp & _).
    split.
    + subst p. unfold reading. rewrite Hp. exact Hstart.
    + intros Hq Hel. subst p. unfold reading. now apply startup_settles.
Qed.

Lemma startup_sweeps_from_zero_witness :
  _animated_percent
    (self (run [PaintEvent; AnimationTick 16; AnimationTick 984]
             (main 1920 (reading (literal 675 10 : Qc) false))))
  = of_int 67
  /\ _animated_percent
       (self (run [AnimationTick 500; AnimationTick 500] (started_b64 true)))
     = of_int 80.
Proof.
  split.
  - pose proof (proj1 startup_sweeps_from_zero 1920 (literal 675 10) false
                  [PaintEvent; AnimationTick 16; AnimationTick 984]) as H.
    cbv zeta in H. destruct H as (_ & _ & _ & H).
    change (of_int 67 : Qc)
      with (of_int (Z.quot (Qnum (this (literal 675 10 : Qc)))
                      (Zpos (Qden (this (literal 675 10 : Qc))))) : Qc).
    apply H; [reflexivity|vm_compute; discriminate].
  - pose proof (proj2 startup_sweeps_from_zero 1920 80 true
                  [AnimationTick 500; AnimationTick 500]) as H.
    cbv zeta in H. destruct H as (_ & H); [lia|].
    apply H; [reflexivity|vm_compute; discriminate].
Defined.

(** X16: there is no way back from a dismissal: once the window is
    hidden, no event shows it again and nothing more is painted,
    while the polls go on. *)
Theorem hidden_stays_hidden {F : Type} {PF : PyFloat F}
  (screen_width : Z) (first : SensorRead F) (events later : list (Event F)) :
  let p := run events (main screen_width first) in
  visible (base (self p)) = false ->
  visible (base (self (run later p))) = false
  /\ screen (run later p) = screen p
  /\ stdout (run later p) = (stdout p ++ error_lines later)%list.
Proof.
  intros p Hv.
  assert (HI : Inv p) by apply run_Inv, main_Inv.
  assert (Hr : exec_running p = true)
    by (apply run_running; auto using main_Inv, main_running).
  split; [|split; [|now apply run_stdout]];
    clear Hr; revert HI Hv; generalize p; clear p;
    induction later as [|ev es IH]; intros p HI Hv; try reflexivity; try exact Hv;
    rewrite run_cons; destruct (dispatch_hidden ev HI Hv) as [V S].
  - apply IH; auto using dispatch_Inv.
  - rewrite IH; auto using dispatch_Inv.
Qed.

Lemma hidden_stays_hidden_witness :
  visible
    (base (self (run [PaintEvent; TimerTimeout (reading (of_int 50) true);
                      MousePress LeftButton]
                   (run [MousePress RightButton] (started_b64 false)))))
  = false.
Proof.
  apply (@hidden_stays_hidden float _ 1920 (reading (of_int 80) false)
           [MousePress RightButton]
           [PaintEvent; TimerTimeout (reading (of_int 50) true); MousePress LeftButton]).
  reflexivity.
Defined.
